(** * Student Finance Manager: derived metrics, verified against the source

    A shallow embedding of the TypeScript components of the Student Finance
    Manager (health score, expense prediction, budget recommendation,
    gamification, expense form, dashboard statistics and CSV export),
    followed by the properties the specification states about them.

    Conventions of the embedding

    - A JavaScript [number] is an exact rational extended with [NaN],
      [+Infinity] and [-Infinity]; the special values follow IEEE 754 (and
      therefore JavaScript) for every operation.  Rounding of binary64
      arithmetic and the sign of zero are not modelled: sums, products and
      quotients of finite values are exact.
    - A JavaScript object used as a dictionary ([Budget], the accumulators of
      [reduce]) is a [gmap string number]; an absent key reads [undefined],
      here [None].
    - The clock and the [Date] library are modelled in UTC: a [Date] is a
      number of milliseconds since the epoch, or invalid. *)

From Stdlib Require Import QArith Qround Qabs Lqa ZArith Lia String Ascii List.
From stdpp Require Import gmap strings list fin_maps pretty sorting.

Local Open Scope Z_scope.

(* ================================================================== *)
(** ** JavaScript numbers *)
(* ================================================================== *)

Module JS.

Inductive number : Type :=
  | NaN
  | PInf
  | NInf
  | Fin (q : Q).

Definition Qltb (x y : Q) : bool :=
  match (x ?= y)%Q with Lt => true | _ => false end.

Definition Qleb (x y : Q) : bool :=
  match (x ?= y)%Q with Gt => false | _ => true end.

Definition neg (a : number) : number :=
  match a with
  | NaN => NaN
  | PInf => NInf
  | NInf => PInf
  | Fin x => Fin (- x)
  end.

(** [a + b] *)
Definition add (a b : number) : number :=
  match a, b with
  | NaN, _ | _, NaN => NaN
  | PInf, NInf | NInf, PInf => NaN
  | PInf, _ | _, PInf => PInf
  | NInf, _ | _, NInf => NInf
  | Fin x, Fin y => Fin (x + y)
  end.

(** [a - b] *)
Definition sub (a b : number) : number := add a (neg b).

(** The infinity carrying the sign of [x], and [NaN] for zero. *)
Definition inf_of_sign (x : Q) : number :=
  match (x ?= 0)%Q with
  | Eq => NaN
  | Gt => PInf
  | Lt => NInf
  end.

(** [a * b] *)
Definition mul (a b : number) : number :=
  match a, b with
  | NaN, _ | _, NaN => NaN
  | Fin x, Fin y => Fin (x * y)
  | Fin x, PInf | PInf, Fin x => inf_of_sign x
  | Fin x, NInf | NInf, Fin x => inf_of_sign (- x)
  | PInf, PInf | NInf, NInf => PInf
  | PInf, NInf | NInf, PInf => NInf
  end.

(** [a / b]: a finite value over zero is an infinity, zero over zero and
    infinity over infinity are [NaN]. *)
Definition div (a b : number) : number :=
  match a, b with
  | NaN, _ | _, NaN => NaN
  | Fin x, Fin y => if Qeq_bool y 0 then inf_of_sign x else Fin (x / y)
  | Fin _, (PInf | NInf) => Fin 0
  | PInf, Fin y => if Qltb y 0 then NInf else PInf
  | NInf, Fin y => if Qltb y 0 then PInf else NInf
  | (PInf | NInf), (PInf | NInf) => NaN
  end.

(** [a < b]; every comparison with [NaN] is false. *)
Definition lt (a b : number) : bool :=
  match a, b with
  | NaN, _ | _, NaN => false
  | _, NInf => false
  | NInf, _ => true
  | PInf, _ => false
  | Fin _, PInf => true
  | Fin x, Fin y => Qltb x y
  end.

(** [a <= b] *)
Definition le (a b : number) : bool :=
  match a, b with
  | NaN, _ | _, NaN => false
  | NInf, _ => true
  | _, NInf => false
  | _, PInf => true
  | PInf, _ => false
  | Fin x, Fin y => Qleb x y
  end.

(** [a > b] and [a >= b] *)
Definition gt (a b : number) : bool := lt b a.
Definition ge (a b : number) : bool := le b a.

(** [a === b] on numbers: [NaN] differs from itself. *)
Definition strict_eq (a b : number) : bool :=
  match a, b with
  | Fin x, Fin y => Qeq_bool x y
  | PInf, PInf | NInf, NInf => true
  | _, _ => false
  end.

(** [isNaN(a)] *)
Definition isNaN (a : number) : bool :=
  match a with NaN => true | _ => false end.

(** Truthiness of a number: [0] and [NaN] are falsy. *)
Definition truthy (a : number) : bool :=
  match a with
  | NaN => false
  | Fin x => negb (Qeq_bool x 0)
  | _ => true
  end.

(** [a || d] where [a] is a number. *)
Definition or_else (a d : number) : number :=
  if truthy a then a else d.

(** [o || d] where [o] is the result of a property read: [undefined]
    ([None]) is falsy. *)
Definition or_default (o : option number) (d : number) : number :=
  match o with
  | Some a => or_else a d
  | None => d
  end.

(** [Math.max(a, b)] and [Math.min(a, b)]: [NaN] when an argument is. *)
Definition Math_max (a b : number) : number :=
  match a, b with
  | NaN, _ | _, NaN => NaN
  | _, _ => if lt a b then b else a
  end.

Definition Math_min (a b : number) : number :=
  match a, b with
  | NaN, _ | _, NaN => NaN
  | _, _ => if lt b a then b else a
  end.

(** [Math.floor] and [Math.round] (ties go up: [floor (x + 1/2)]). *)
Definition Math_floor (a : number) : number :=
  match a with
  | Fin x => Fin (inject_Z (Qfloor x))
  | _ => a
  end.

Definition Math_round (a : number) : number :=
  match a with
  | Fin x => Fin (inject_Z (Qfloor (x + (1 # 2))))
  | _ => a
  end.

(** Square root of a non-negative rational, rounded down to six decimal
    places.  The development only relies on its sign and on [sqrt 0 = 0]. *)
Definition Qsqrt (x : Q) : Q :=
  Qmake (Z.sqrt (Qnum x * 10 ^ 12 / Zpos (Qden x))) (10 ^ 6).

(** [Math.sqrt(a)] *)
Definition Math_sqrt (a : number) : number :=
  match a with
  | NaN | NInf => NaN
  | PInf => PInf
  | Fin x => if Qltb x 0 then NaN else Fin (Qsqrt x)
  end.

(** [Math.pow(a, n)] for a natural exponent [n]. *)
Fixpoint Math_pow (a : number) (n : nat) : number :=
  match n with
  | O => Fin 1
  | S n' => mul a (Math_pow a n')
  end.

(** Numbers from integer literals and array lengths. *)
Definition of_Z (z : Z) : number := Fin (inject_Z z).
Definition of_nat (n : nat) : number := of_Z (Z.of_nat n).

(** Value equality of numbers: rationals up to [Qeq], and each special
    value equal to itself. *)
Definition eqn (a b : number) : Prop :=
  match a, b with
  | Fin x, Fin y => (x == y)%Q
  | NaN, NaN | PInf, PInf | NInf, NInf => True
  | _, _ => False
  end.

(** [a] is a finite number between [lo] and [hi]. *)
Definition between (lo hi : Q) (a : number) : Prop :=
  match a with
  | Fin x => (lo <= x /\ x <= hi)%Q
  | _ => False
  end.

(** [a] is finite and not negative. *)
Definition nonneg (a : number) : Prop :=
  match a with
  | Fin x => (0 <= x)%Q
  | _ => False
  end.

(** [arr.reduce((sum, x) => sum + x, 0)] *)
Definition sum (l : list number) : number := foldl add (Fin 0) l.

End JS.

Export JS.

#[global] Instance number_equiv : Equiv number := eqn.

Declare Scope js_scope.
Delimit Scope js_scope with js.
Bind Scope js_scope with number.
Infix "+" := add : js_scope.
Infix "-" := sub : js_scope.
Infix "*" := mul : js_scope.
Infix "/" := div : js_scope.
Notation "a <? b" := (lt a b) : js_scope.
Notation "a <=? b" := (le a b) : js_scope.
Notation "a >? b" := (gt a b) : js_scope.
Notation "a >=? b" := (ge a b) : js_scope.
Notation "a === b" := (strict_eq a b) (at level 70, no associativity) : js_scope.

(** Decimal literals of the source, as exact rationals. *)
Definition lit (n : Z) : number := of_Z n.
Definition dec (n : Z) (d : positive) : number := Fin (Qmake n d).

(* ================================================================== *)
(** ** JavaScript strings *)
(* ================================================================== *)

Module Str.

Local Open Scope string_scope.

Definition code (c : ascii) : N := N_of_ascii c.

Definition is_digit (c : ascii) : bool :=
  ((48 <=? code c) && (code c <=? 57))%N.

Definition digit_val (c : ascii) : Z := Z.of_N (code c) - 48.

(** White space of [String.prototype.trim] and of numeric strings, within
    ASCII: tab, line feed, vertical tab, form feed, carriage return, space. *)
Definition is_space (c : ascii) : bool :=
  ((9 <=? code c) && (code c <=? 13) || (code c =? 32))%N.

Fixpoint drop_spaces (l : list ascii) : list ascii :=
  match l with
  | c :: l' => if is_space c then drop_spaces l' else l
  | [] => []
  end.

Definition trim_chars (l : list ascii) : list ascii :=
  rev (drop_spaces (rev (drop_spaces l))).

(** [s.trim()] *)
Definition trim (s : string) : string :=
  string_of_list_ascii (trim_chars (list_ascii_of_string s)).

Definition lower_char (c : ascii) : ascii :=
  if ((65 <=? code c) && (code c <=? 90))%N
  then ascii_of_N (code c + 32) else c.

(** [s.toLowerCase()] on ASCII letters. *)
Definition toLowerCase (s : string) : string :=
  string_of_list_ascii (map lower_char (list_ascii_of_string s)).

(** [s.startsWith(p)] *)
Definition startsWith (s p : string) : bool := String.prefix p s.

(** [s.includes(sub)] *)
Fixpoint includes (s sub : string) : bool :=
  String.prefix sub s ||
  match s with
  | EmptyString => false
  | String _ s' => includes s' sub
  end.

(** [parts.join(sep)] *)
Fixpoint join (sep : string) (parts : list string) : string :=
  match parts with
  | [] => ""
  | [p] => p
  | p :: rest => p ++ sep ++ join sep rest
  end.

(** [s.slice(0, n)] *)
Definition slice0 (n : nat) (s : string) : string := substring 0 n s.

(** Left padding with zeros up to [n] characters. *)
Definition pad0 (n : nat) (s : string) : string :=
  string_of_list_ascii (repeat "0"%char (n - String.length s)) ++ s.

(** The decimal digits of a non-negative integer. *)
Definition digits (z : Z) : string := pretty (Z.to_N z).

(** The newline character. *)
Definition nl : string := String (ascii_of_N 10) "".

End Str.

(** [x.toFixed(digits)]: the closest decimal with [digits] fractional
    digits, the larger one on a tie.  (Values of magnitude 1e21 and above,
    which JavaScript prints in exponent notation, are printed in fixed
    notation here.) *)
Definition toFixed (a : number) (fd : nat) : string :=
  match a with
  | NaN => "NaN"
  | PInf => "Infinity"
  | NInf => "-Infinity"
  | Fin x =>
      let n := Qfloor (Qabs x * inject_Z (10 ^ Z.of_nat fd) + (1 # 2)) in
      let s := Str.pad0 (S fd) (Str.digits n) in
      let k := (String.length s - fd)%nat in
      ((if Qltb x 0 then "-" else "") ++ substring 0 k s ++
       (if Nat.eqb fd 0 then "" else "." ++ substring k fd s))%string
  end.

(* ================================================================== *)
(** ** [Number(string)] *)
(* ================================================================== *)

Module NumberParse.

Import Str.

(** Longest prefix of digits in base [base]: its value, its length and the
    rest of the input. *)
Definition digit_in (base : Z) (c : ascii) : option Z :=
  let n := code c in
  let v :=
    if ((48 <=? n) && (n <=? 57))%N then Z.of_N n - 48
    else if ((97 <=? n) && (n <=? 102))%N then Z.of_N n - 87
    else if ((65 <=? n) && (n <=? 70))%N then Z.of_N n - 55
    else base in
  if v <? base then Some v else None.

Fixpoint span_digits (base : Z) (l : list ascii) (acc : Z) (n : nat)
  : Z * nat * list ascii :=
  match l with
  | c :: l' =>
      match digit_in base c with
      | Some v => span_digits base l' (acc * base + v) (S n)
      | None => (acc, n, l)
      end
  | [] => (acc, n, [])
  end.

(** ExponentPart, or nothing, up to the end of the input. *)
Definition parse_exp (m : Q) (r : list ascii) : option Q :=
  match r with
  | [] => Some m
  | c :: r' =>
      if (code c =? 101)%N || (code c =? 69)%N then
        let '(sg, r'') :=
          match r' with
          | s :: t =>
              if (code s =? 45)%N then (-1, t)
              else if (code s =? 43)%N then (1, t) else (1, r')
          | [] => (1, r')
          end in
        match span_digits 10 r'' 0 0 with
        | (e, S _, []) => Some (m * Qpower (inject_Z 10) (sg * e))%Q
        | _ => None
        end
      else None
  end.

(** StrUnsignedDecimalLiteral without [Infinity]. *)
Definition parse_unsigned (l : list ascii) : option Q :=
  let '(ip, ni, r1) := span_digits 10 l 0 0 in
  match r1 with
  | c :: r2 =>
      if (code c =? 46)%N then
        let '(fp, nf, r3) := span_digits 10 r2 0 0 in
        if Nat.eqb ni 0 && Nat.eqb nf 0 then None
        else parse_exp (inject_Z ip + inject_Z fp / inject_Z (10 ^ Z.of_nat nf))%Q r3
      else if Nat.eqb ni 0 then None else parse_exp (inject_Z ip) r1
  | [] => if Nat.eqb ni 0 then None else Some (inject_Z ip)
  end.

Definition Infinity_chars : list ascii := list_ascii_of_string "Infinity".

Definition parse_magnitude (l : list ascii) : number :=
  if decide (l = Infinity_chars) then PInf
  else match parse_unsigned l with
       | Some q => Fin q
       | None => NaN
       end.

(** [0x], [0o] and [0b] literals. *)
Definition parse_radix (l : list ascii) : option number :=
  match l with
  | z :: p :: ds =>
      let base :=
        if (code p =? 120)%N || (code p =? 88)%N then 16
        else if (code p =? 111)%N || (code p =? 79)%N then 8
        else if (code p =? 98)%N || (code p =? 66)%N then 2
        else 0 in
      if (code z =? 48)%N && negb (base =? 0) then
        match span_digits base ds 0 0 with
        | (v, S _, []) => Some (of_Z v)
        | _ => Some NaN
        end
      else None
  | _ => None
  end.

(** [Number(s)] for a string [s]: white space is trimmed, the empty string
    is [0], and anything that is not a numeric literal is [NaN]. *)
Definition Number (s : string) : number :=
  match trim_chars (list_ascii_of_string s) with
  | [] => Fin 0
  | (c :: r) as l =>
      match parse_radix l with
      | Some v => v
      | None =>
          if (code c =? 45)%N then neg (parse_magnitude r)
          else if (code c =? 43)%N then parse_magnitude r
          else parse_magnitude l
      end
  end.

End NumberParse.

Export NumberParse.

(* ================================================================== *)
(** ** The [Date] library, in UTC *)
(* ================================================================== *)

Module Date.

Import Str.

Definition msPerDay : Z := 86400000.

(** Days between 1970-01-01 and the civil date [y]-[m]-[d] ([m] from 1 to
    12); linear in [d], so that day numbers outside the month carry over. *)
Definition days_from_civil (y m d : Z) : Z :=
  let y' := if m <=? 2 then y - 1 else y in
  let era := y' / 400 in
  let yoe := y' - era * 400 in
  let mp := (m + 9) mod 12 in
  let doy := (153 * mp + 2) / 5 + d - 1 in
  let doe := yoe * 365 + yoe / 4 - yoe / 100 + doy in
  era * 146097 + doe - 719468.

(** The civil date (year, month from 1 to 12, day) of a day number. *)
Definition civil_from_days (z : Z) : Z * Z * Z :=
  let z' := z + 719468 in
  let era := z' / 146097 in
  let doe := z' - era * 146097 in
  let yoe := (doe - doe / 1460 + doe / 36524 - doe / 146096) / 365 in
  let doy := doe - (365 * yoe + yoe / 4 - yoe / 100) in
  let mp := (5 * doy + 2) / 153 in
  let d := doy - (153 * mp + 2) / 5 + 1 in
  let m := if mp <? 10 then mp + 3 else mp - 9 in
  (if m <=? 2 then yoe + era * 400 + 1 else yoe + era * 400, m, d).

(** A [Date] object holds a time value in milliseconds, or is invalid. *)
Definition t : Type := option Z.

(** Time value of year, month (from 0, any integer: months outside 0..11
    carry into the year), day of the month (any integer) and time of day. *)
Definition make (year month day ms : Z) : Z :=
  (days_from_civil (year + month / 12) (month mod 12 + 1) 1 + (day - 1))
  * msPerDay + ms.

Definition year (tv : Z) : Z := (civil_from_days (tv / msPerDay)).1.1.
Definition month (tv : Z) : Z := (civil_from_days (tv / msPerDay)).1.2 - 1.
Definition day (tv : Z) : Z := (civil_from_days (tv / msPerDay)).2.
Definition msOfDay (tv : Z) : Z := tv mod msPerDay.

(** [d.getFullYear()], [d.getMonth()] (from 0) and [d.getTime()]; [NaN] on
    an invalid date. *)
Definition getFullYear (d : t) : number :=
  match d with Some tv => of_Z (year tv) | None => NaN end.
Definition getMonth (d : t) : number :=
  match d with Some tv => of_Z (month tv) | None => NaN end.
Definition getTime (d : t) : number :=
  match d with Some tv => of_Z tv | None => NaN end.

(** [d.setMonth(m)] and [d.setDate(n)], returning the updated date. *)
Definition setMonth (d : t) (m : Z) : t :=
  match d with
  | Some tv => Some (make (year tv) m (day tv) (msOfDay tv))
  | None => None
  end.
Definition setDate (d : t) (n : Z) : t :=
  match d with
  | Some tv => Some (make (year tv) (month tv) n (msOfDay tv))
  | None => None
  end.

(** [new Date(year, month, day)] *)
Definition ofYMD (y m d : Z) : t := Some (make y m d 0).

(** Exactly [n] decimal digits. *)
Definition fixed_digits (s : string) : option Z :=
  let l := list_ascii_of_string s in
  if forallb is_digit l && negb (Nat.eqb (length l) 0)
  then Some (fold_left (fun acc c => acc * 10 + digit_val c) l 0)
  else None.

(** [new Date(s)] for a date string [s] of the form YYYY-MM-DD, the form the
    date input and [toISOString().split("T")[0]] produce; it denotes midnight
    UTC of that day.  Any other string gives an invalid date. *)
Definition parse (s : string) : t :=
  if Nat.eqb (String.length s) 10
     && String.eqb (substring 4 1 s) "-" && String.eqb (substring 7 1 s) "-"
  then
    match fixed_digits (substring 0 4 s), fixed_digits (substring 5 2 s),
          fixed_digits (substring 8 2 s) with
    | Some y, Some m, Some d =>
        if (1 <=? m) && (m <=? 12) && (1 <=? d) && (d <=? 31)
        then Some (make y (m - 1) d 0) else None
    | _, _, _ => None
    end
  else None.

(** [d.toISOString().slice(0, 7)] of a valid date: YYYY-MM. *)
Definition isoMonth (tv : Z) : string :=
  (pad0 4 (digits (year tv)) ++ "-" ++ pad0 2 (digits (month tv + 1)))%string.

(** [d.toISOString().split("T")[0]]: YYYY-MM-DD. *)
Definition isoDate (tv : Z) : string :=
  (isoMonth tv ++ "-" ++ pad0 2 (digits (day tv)))%string.

End Date.

(* ================================================================== *)
(** ** The data model *)
(* ================================================================== *)

Record Expense : Type := {
  id : string;
  date : string;
  description : string;
  category : string;
  amount : number
}.

Definition Expense_id (expense : Expense) : string := id expense.

(** [interface Budget { [category: string]: number }] *)
Abbreviation Budget := (gmap string number).

(** [Object.values(o)] and [Object.keys(o)].  The order of enumeration is
    that of the map, not the insertion order of JavaScript; the sums taken
    over it are exact and do not depend on the order. *)
Definition Object_values (o : gmap string number) : list number :=
  (map_to_list o).*2.
Definition Object_keys (o : gmap string number) : list string :=
  (map_to_list o).*1.

(** [expenses.reduce((sum, expense) => sum + expense.amount, 0)] *)
Definition sumAmounts (expenses : list Expense) : number :=
  foldl (fun sum expense => (sum + amount expense)%js) (lit 0) expenses.

(** [expenses.reduce((acc, e) => { acc[key(e)] = (acc[key(e)] || 0) + e.amount;
    return acc; }, {})] *)
Definition groupTotals (key : Expense -> string) (expenses : list Expense)
  : gmap string number :=
  foldl (fun acc e =>
           <[key e := (or_default (acc !! key e) (lit 0) + amount e)%js]> acc)
        ∅ expenses.

(** The expenses dated in the calendar month [month] (from 0) of [year]. *)
Definition inMonth (month year : number) (expense : Expense) : bool :=
  let expenseDate := Date.parse (date expense) in
  (Date.getMonth expenseDate === month)%js
  && (Date.getFullYear expenseDate === year)%js.

(** The four tiers of a score. *)
Inductive Status : Type := excellent | good | warning | poor.

(** [s >= 80 ? 'excellent' : s >= 60 ? 'good' : s >= 40 ? 'warning' : 'poor'] *)
Definition tier (s : number) : Status :=
  if (s >=? lit 80)%js then excellent
  else if (s >=? lit 60)%js then good
  else if (s >=? lit 40)%js then warning
  else poor.

(* ================================================================== *)
(** ** FinancialHealthScore *)
(* ================================================================== *)

Module FinancialHealthScore.

Local Open Scope string_scope.
Local Open Scope js_scope.

Record HealthMetric : Type := {
  name : string;
  score : number;
  status : Status;
  description : string
}.

(** Budget, Consistency, Diversity, Emergency *)
Definition weights : list number :=
  [dec 4 10; dec 25 100; dec 2 10; dec 15 100].

(** [weights[index]]; reading past the end gives [undefined], which turns
    the product into [NaN]. *)
Definition weightAt (index : nat) : number :=
  default NaN (weights !! index).

Section Component.

(** The clock, [new Date()], and the properties of the component. *)
Variable now : Z.
Variable expenses : list Expense.
Variable budget : Budget.

Definition currentMonth : number := Date.getMonth (Some now).
Definition currentYear : number := Date.getFullYear (Some now).

Definition monthlyExpenses : list Expense :=
  List.filter (inMonth currentMonth currentYear) expenses.

Definition totalSpent : number := sumAmounts monthlyExpenses.
Definition totalBudget : number := sum (Object_values budget).

(** Budget Adherence Score (40% weight) *)
Definition budgetScore : number :=
  if totalBudget >? lit 0
  then Math_max (lit 0)
         (lit 100 - ((totalSpent / totalBudget) * lit 100 - lit 100))
  else lit 50.

(** Spending Consistency Score (25% weight) *)
Definition dailySpending : gmap string number :=
  groupTotals date monthlyExpenses.

Definition spendingValues : list number := Object_values dailySpending.

Definition avgDailySpending : number :=
  if negb (Nat.eqb (length spendingValues) 0)
  then sum spendingValues / of_nat (length spendingValues)
  else lit 0.

Definition variance : number :=
  if negb (Nat.eqb (length spendingValues) 0)
  then foldl (fun sum val => sum + Math_pow (val - avgDailySpending) 2)
             (lit 0) spendingValues
       / of_nat (length spendingValues)
  else lit 0.

Definition consistencyScore : number :=
  Math_max (lit 0)
    (lit 100 - (Math_sqrt variance / avgDailySpending) * lit 50).

(** Category Diversification Score (20% weight) *)
Definition categorySpending : gmap string number :=
  groupTotals category monthlyExpenses.

Definition categoryCount : nat := length (Object_keys categorySpending).

Definition diversificationScore : number :=
  Math_min (lit 100) (of_nat categoryCount * dec 1667 100).

(** Emergency Fund Indicator (15% weight) *)
Definition avgMonthlySpending : number := or_else totalSpent (lit 100).

Definition emergencyScore : number :=
  if totalBudget >=? avgMonthlySpending * dec 5 10
  then lit 100
  else (totalBudget / (avgMonthlySpending * dec 5 10)) * lit 100.

Definition healthMetrics : list HealthMetric :=
  [ {| name := "Budget Adherence";
       score := budgetScore;
       status := tier budgetScore;
       description :=
         match tier budgetScore with
         | excellent => "Excellent budget control!"
         | good => "Good spending discipline"
         | warning => "Watch your spending"
         | poor => "Over budget - need action"
         end |};
    {| name := "Spending Consistency";
       score := consistencyScore;
       status := tier consistencyScore;
       description :=
         match tier consistencyScore with
         | excellent => "Very predictable spending"
         | good => "Fairly consistent"
         | warning => "Some spending spikes"
         | poor => "Erratic spending pattern"
         end |};
    {| name := "Category Balance";
       score := diversificationScore;
       status := tier diversificationScore;
       description :=
         match tier diversificationScore with
         | excellent => "Well-balanced spending"
         | good => "Good category mix"
         | warning => "Limited spending variety"
         | poor => "Too focused on few categories"
         end |};
    {| name := "Emergency Readiness";
       score := emergencyScore;
       status := tier emergencyScore;
       description :=
         match tier emergencyScore with
         | excellent => "Great emergency buffer"
         | good => "Decent safety net"
         | warning => "Build emergency fund"
         | poor => "Critical: No emergency fund"
         end |} ].

(** [healthMetrics.reduce((sum, metric, index) =>
       sum + metric.score * weights[index], 0)] *)
Definition weightedSum (metrics : list HealthMetric) : number :=
  (foldl (fun '(sum, index) metric =>
            (sum + score metric * weightAt index, S index))
         (lit 0, O) metrics).1.

Definition overallScore : number := Math_round (weightedSum healthMetrics).

End Component.

End FinancialHealthScore.

(* ================================================================== *)
(** ** ExpensePrediction *)
(* ================================================================== *)

(** [arr[i]] on an array of numbers; [undefined] behaves as [NaN] in the
    comparisons and products it is used in. *)
Definition numAt (arr : list number) (i : nat) : number :=
  default NaN (arr !! i).

(** [[...new Set(arr)]]: the distinct elements, in order of first
    occurrence. *)
Definition unique (arr : list string) : list string :=
  foldl (fun seen x => if decide (x ∈ seen) then seen else seen ++ [x]) [] arr.

(** [arr.sort(compareFn)]: the stable sort that places [a] before [b] when
    [compareFn(a, b) < 0]. *)
Fixpoint sort_insert {A : Type} (compareFn : A -> A -> number) (x : A)
    (sorted : list A) : list A :=
  match sorted with
  | [] => [x]
  | y :: rest =>
      if (compareFn x y <=? lit 0)%js then x :: sorted
      else y :: sort_insert compareFn x rest
  end.

Definition Array_sort {A : Type} (compareFn : A -> A -> number)
    (arr : list A) : list A :=
  foldr (sort_insert compareFn) [] arr.

Inductive Trend : Type := increasing | decreasing | stable.
Inductive Impact : Type := high | medium | low.

Definition Trend_name (t : Trend) : string :=
  match t with
  | increasing => "increasing"
  | decreasing => "decreasing"
  | stable => "stable"
  end.

Module Prediction.
Record t : Type := {
  category : string;
  predictedAmount : number;
  confidence : number;
  trend : Trend;
  reasoning : string
}.
End Prediction.

Module BudgetRecommendation.
Record t : Type := {
  category : string;
  currentBudget : number;
  recommendedBudget : number;
  reasoning : string;
  impact : Impact
}.
End BudgetRecommendation.

Module ExpensePrediction.

Local Open Scope string_scope.
Local Open Scope js_scope.

(** [const impactOrder = { high: 3, medium: 2, low: 1 }] *)
Definition impactOrder (i : Impact) : number :=
  match i with
  | high => lit 3
  | medium => lit 2
  | low => lit 1
  end.

(** The trend of a monthly series, most recent month first. *)
Definition trendOf (monthlySpending : list number) : Trend :=
  if (2 <=? length monthlySpending)%nat then
    let recent := numAt monthlySpending 0 in
    let older := numAt monthlySpending (length monthlySpending - 1) in
    if recent >? older * dec 11 10 then increasing
    else if recent <? older * dec 9 10 then decreasing
    else stable
  else stable.

Section Component.

Variable now : Z.
Variable expenses : list Expense.
Variable budget : Budget.

Definition currentMonth : Z := Date.month now.
Definition currentYear : Z := Date.year now.

(** The per-category totals of the month [i] months before the current
    one.  (The short month label stored next to them is not modelled.) *)
Definition monthData (i : Z) : gmap string number :=
  let monthDate := Date.ofYMD currentYear (currentMonth - i) 1 in
  let monthExpenses :=
    List.filter
      (inMonth (Date.getMonth monthDate) (Date.getFullYear monthDate))
      expenses in
  groupTotals category monthExpenses.

(** Last 3 months of data for trend analysis *)
Definition historicalData : list (gmap string number) :=
  map monthData [0; 1; 2]%Z.

Definition categories : list string := unique (map category expenses).

Definition monthlySpendingOf (category : string) : list number :=
  map (fun month => or_default (month !! category) (lit 0)) historicalData.

Definition nextMonth : number :=
  Date.getMonth (Date.ofYMD currentYear (currentMonth + 1) 1).

Definition predict (category : string) : Prediction.t :=
  let monthlySpending := monthlySpendingOf category in
  let avgSpending := sum monthlySpending / of_nat (length monthlySpending) in
  let trend := trendOf monthlySpending in
  let '(predictedAmount, confidence) :=
    match trend with
    | increasing =>
        (avgSpending * dec 115 100,
         if (3 <=? length monthlySpending)%nat then lit 85 else lit 70)
    | decreasing =>
        (avgSpending * dec 85 100,
         if (3 <=? length monthlySpending)%nat then lit 80 else lit 65)
    | stable => (avgSpending, lit 70)
    end in
  (* Adjust for seasonal patterns *)
  let '(predictedAmount, confidence) :=
    if String.eqb category "education"
       && ((nextMonth === lit 8) || (nextMonth === lit 0))
    then (predictedAmount * dec 13 10,
          Math_min (confidence + lit 10) (lit 95))
    else (predictedAmount, confidence) in
  let predictedAmount :=
    if String.eqb category "entertainment"
       && ((nextMonth === lit 11) || (nextMonth === lit 0))
    then predictedAmount * dec 12 10
    else predictedAmount in
  {| Prediction.category := category;
     Prediction.predictedAmount := Math_max (lit 0) predictedAmount;
     Prediction.confidence := confidence;
     Prediction.trend := trend;
     Prediction.reasoning :=
       "Based on " ++ pretty (length monthlySpending)
       ++ " months of data showing " ++ Trend_name trend
       ++ " trend. Average: $" ++ toFixed avgSpending 2 ++ "/month." |}.

Definition categoryPredictions : list Prediction.t := map predict categories.

Definition predictions : list Prediction.t :=
  List.filter (fun p => Prediction.predictedAmount p >? lit 0)
              categoryPredictions.

Definition recommend (prediction : Prediction.t) : BudgetRecommendation.t :=
  let currentBudget :=
    or_default (budget !! Prediction.category prediction) (lit 0) in
  let predicted := Prediction.predictedAmount prediction in
  let '(recommendedBudget, reasoning, impact) :=
    if currentBudget === lit 0 then
      let recommendedBudget := predicted * dec 12 10 in
      (recommendedBudget,
       "No budget set. Recommend $" ++ toFixed recommendedBudget 2
       ++ " based on predictions plus 20% buffer.",
       high)
    else if predicted >? currentBudget * dec 11 10 then
      (predicted * dec 115 100,
       "Predicted spending exceeds current budget. Increase recommended to avoid overspending.",
       high)
    else if predicted <? currentBudget * dec 8 10 then
      (predicted * dec 11 10,
       "Current budget seems high. You could reallocate funds to other categories.",
       medium)
    else
      (currentBudget,
       "Current budget is appropriate for predicted spending.",
       low) in
  {| BudgetRecommendation.category := Prediction.category prediction;
     BudgetRecommendation.currentBudget := currentBudget;
     BudgetRecommendation.recommendedBudget := recommendedBudget;
     BudgetRecommendation.reasoning := reasoning;
     BudgetRecommendation.impact := impact |}.

Definition byImpact (a b : BudgetRecommendation.t) : number :=
  impactOrder (BudgetRecommendation.impact b)
  - impactOrder (BudgetRecommendation.impact a).

Definition budgetRecommendations : list BudgetRecommendation.t :=
  Array_sort byImpact (map recommend predictions).

(** The budget handed to [onUpdateBudget] by [applyRecommendation(rec)]. *)
Definition applyRecommendation (rec : BudgetRecommendation.t) : Budget :=
  let newBudget := budget in
  <[BudgetRecommendation.category rec :=
      BudgetRecommendation.recommendedBudget rec]> newBudget.

(** The budget handed to [onUpdateBudget] by [applyAllRecommendations()]. *)
Definition applyAllRecommendations : Budget :=
  foldl (fun newBudget rec =>
           match BudgetRecommendation.impact rec with
           | high =>
               <[BudgetRecommendation.category rec :=
                   BudgetRecommendation.recommendedBudget rec]> newBudget
           | _ => newBudget
           end)
        budget budgetRecommendations.

End Component.

End ExpensePrediction.

(* ================================================================== *)
(** ** EnhancedGamification *)
(* ================================================================== *)

Inductive Tier : Type := bronze | silver | gold | platinum.

Module Achievement.
Record t : Type := {
  id : string;
  title : string;
  description : string;
  progress : number;
  maxProgress : number;
  unlocked : bool;
  points : number;
  tier : Tier
}.
End Achievement.

Module Reward.
Record t : Type := {
  id : string;
  title : string;
  description : string;
  cost : number;
  unlocked : bool
}.
End Reward.

Module EnhancedGamification.

Local Open Scope string_scope.
Local Open Scope js_scope.

(** The state hooks of the component. *)
Record State : Type := {
  streakCount : number;
  level : number;
  totalPoints : number;
  unlockedRewards : list string
}.

(** [useState(0)], [useState(1)], [useState(0)], [useState([])] *)
Definition initialState : State :=
  {| streakCount := lit 0; level := lit 1; totalPoints := lit 0;
     unlockedRewards := [] |}.

Section Component.

Variable now : Z.
Variable expenses : list Expense.
Variable budget : Budget.

Definition achievements (streakCount : number) : list Achievement.t :=
  let currentMonth := Date.getMonth (Some now) in
  let currentYear := Date.getFullYear (Some now) in
  let monthlyExpenses :=
    List.filter (inMonth currentMonth currentYear) expenses in
  let totalSpent := sumAmounts monthlyExpenses in
  let totalBudget := sum (Object_values budget) in
  let categories := unique (map category expenses) in
  let expenseCount := of_nat (length expenses) in
  let saved :=
    if totalBudget >? lit 0
    then Math_min (lit 100) (((totalBudget - totalSpent) / totalBudget) * lit 100)
    else lit 0 in
  [ {| Achievement.id := "first-expense";
       Achievement.title := "First Step";
       Achievement.description := "Log your first expense";
       Achievement.progress := Math_min expenseCount (lit 1);
       Achievement.maxProgress := lit 1;
       Achievement.unlocked := expenseCount >=? lit 1;
       Achievement.points := lit 50;
       Achievement.tier := bronze |};
    {| Achievement.id := "expense-tracker";
       Achievement.title := "Expense Tracker";
       Achievement.description := "Track 10 expenses";
       Achievement.progress := Math_min expenseCount (lit 10);
       Achievement.maxProgress := lit 10;
       Achievement.unlocked := expenseCount >=? lit 10;
       Achievement.points := lit 100;
       Achievement.tier := bronze |};
    {| Achievement.id := "budget-master";
       Achievement.title := "Budget Master";
       Achievement.description := "Stay within budget for a month";
       Achievement.progress := saved;
       Achievement.maxProgress := lit 100;
       Achievement.unlocked :=
         (totalBudget >? lit 0) && (totalSpent <=? totalBudget);
       Achievement.points := lit 200;
       Achievement.tier := gold |};
    {| Achievement.id := "category-explorer";
       Achievement.title := "Category Explorer";
       Achievement.description := "Use 5 different categories";
       Achievement.progress := Math_min (of_nat (length categories)) (lit 5);
       Achievement.maxProgress := lit 5;
       Achievement.unlocked := of_nat (length categories) >=? lit 5;
       Achievement.points := lit 150;
       Achievement.tier := silver |};
    {| Achievement.id := "savings-champion";
       Achievement.title := "Savings Champion";
       Achievement.description := "Save 20% of your budget";
       Achievement.progress := saved;
       Achievement.maxProgress := lit 20;
       Achievement.unlocked :=
         (totalBudget >? lit 0)
         && (((totalBudget - totalSpent) / totalBudget) >=? dec 2 10);
       Achievement.points := lit 300;
       Achievement.tier := platinum |};
    {| Achievement.id := "voice-user";
       Achievement.title := "Voice Commander";
       Achievement.description := "Use voice input 5 times";
       Achievement.progress := lit 0;
       Achievement.maxProgress := lit 5;
       Achievement.unlocked := false;
       Achievement.points := lit 100;
       Achievement.tier := silver |};
    {| Achievement.id := "consistent-tracker";
       Achievement.title := "Consistency King";
       Achievement.description := "Track expenses for 7 consecutive days";
       Achievement.progress := streakCount;
       Achievement.maxProgress := lit 7;
       Achievement.unlocked := streakCount >=? lit 7;
       Achievement.points := lit 250;
       Achievement.tier := gold |} ].

(** [achievements.filter(a => a.unlocked).reduce((sum, a) => sum + a.points, 0)] *)
Definition earnedPoints (streakCount : number) : number :=
  foldl (fun sum a => sum + Achievement.points a) (lit 0)
        (List.filter Achievement.unlocked (achievements streakCount)).

(** The effect that calculates level and points; it runs after the first
    render and whenever [achievements] is recomputed, that is when
    [expenses], [budget] or [streakCount] change. *)
Definition pointsEffect (st : State) : State :=
  let earnedPoints := earnedPoints (streakCount st) in
  {| streakCount := streakCount st;
     level := Math_floor (earnedPoints / lit 200) + lit 1;
     totalPoints := earnedPoints;
     unlockedRewards := unlockedRewards st |}.

End Component.

Definition rewards (totalPoints : number) : list Reward.t :=
  [ {| Reward.id := "budget-boost"; Reward.title := "10% Budget Boost";
       Reward.description := "Increase any category budget by 10%";
       Reward.cost := lit 500; Reward.unlocked := totalPoints >=? lit 500 |};
    {| Reward.id := "category-unlock"; Reward.title := "Custom Category";
       Reward.description := "Create a custom expense category";
       Reward.cost := lit 200; Reward.unlocked := totalPoints >=? lit 200 |};
    {| Reward.id := "premium-insights"; Reward.title := "Premium Insights";
       Reward.description := "Advanced spending analytics";
       Reward.cost := lit 1000; Reward.unlocked := totalPoints >=? lit 1000 |};
    {| Reward.id := "export-premium"; Reward.title := "Premium Export";
       Reward.description := "Export data in multiple formats";
       Reward.cost := lit 300; Reward.unlocked := totalPoints >=? lit 300 |} ].

(** [arr.includes(x)] on an array of strings. *)
Definition includes (arr : list string) (x : string) : bool :=
  existsb (String.eqb x) arr.

(** The click handler of the button of [reward] in the rewards store. *)
Definition claim (reward : Reward.t) (st : State) : State :=
  if Reward.unlocked reward && negb (includes (unlockedRewards st) (Reward.id reward))
  then {| streakCount := streakCount st;
          level := level st;
          totalPoints := totalPoints st - Reward.cost reward;
          unlockedRewards := unlockedRewards st ++ [Reward.id reward] |}
  else st.

(** What happens to a mounted component: its parent passes new [expenses]
    and [budget], or the user clicks the button of the reward with a given
    id. *)
Inductive Event : Type :=
  | SetProps (expenses : list Expense) (budget : Budget)
  | Click (rewardId : string).

(** The component between two events: its current properties and state. *)
Record Instance : Type := {
  props : list Expense * Budget;
  state : State
}.

(** The component as mounted by the page, which starts with no expense and
    an empty budget; the effect runs after the first render. *)
Definition mount (now : Z) : Instance :=
  {| props := ([], ∅); state := pointsEffect now [] ∅ initialState |}.

Definition step (now : Z) (c : Instance) (ev : Event) : Instance :=
  match ev with
  | SetProps expenses budget =>
      {| props := (expenses, budget);
         state := pointsEffect now expenses budget (state c) |}
  | Click rewardId =>
      match List.find (fun r => String.eqb (Reward.id r) rewardId)
                      (rewards (totalPoints (state c))) with
      | Some reward => {| props := props c; state := claim reward (state c) |}
      | None => c
      end
  end.

Definition run (now : Z) (events : list Event) : Instance :=
  foldl (step now) (mount now) events.

End EnhancedGamification.

(* ================================================================== *)
(** ** ExpenseForm and the expense list of the page *)
(* ================================================================== *)

Module CustomCategory.
(** The fields read by the form; label, emoji and colour are display
    only. *)
Record t : Type := {
  id : string;
  value : string;
  keywords : list string
}.
End CustomCategory.

(** A notification shown by [toast]: "Invalid Input" (destructive), or
    "Expense Added!" with the amount and description of the expense. *)
Inductive Toast : Type :=
  | InvalidInput
  | ExpenseAdded (expense : Expense).

Module ExpenseForm.

Local Open Scope string_scope.

Definition defaultCategories : list CustomCategory.t :=
  [ {| CustomCategory.id := "food"; CustomCategory.value := "food";
       CustomCategory.keywords :=
         ["food"; "restaurant"; "lunch"; "dinner"; "breakfast"; "coffee"; "pizza"] |};
    {| CustomCategory.id := "transport"; CustomCategory.value := "transport";
       CustomCategory.keywords :=
         ["uber"; "taxi"; "bus"; "train"; "gas"; "fuel"; "metro"] |};
    {| CustomCategory.id := "entertainment"; CustomCategory.value := "entertainment";
       CustomCategory.keywords :=
         ["movie"; "game"; "netflix"; "spotify"; "concert"; "party"] |};
    {| CustomCategory.id := "bills"; CustomCategory.value := "bills";
       CustomCategory.keywords :=
         ["rent"; "electricity"; "water"; "internet"; "phone"; "bill"] |};
    {| CustomCategory.id := "education"; CustomCategory.value := "education";
       CustomCategory.keywords :=
         ["book"; "course"; "tuition"; "school"; "university"; "study"] |};
    {| CustomCategory.id := "others"; CustomCategory.value := "others";
       CustomCategory.keywords := [] |} ].

Definition smartCategorize (description : string)
    (categories : list CustomCategory.t) : string :=
  let desc := Str.toLowerCase description in
  match List.find
          (fun category =>
             existsb (fun keyword => Str.includes desc keyword)
                     (CustomCategory.keywords category))
          categories with
  | Some category => CustomCategory.value category
  | None => "others"
  end.

(** The state hooks of the form; every field holds the text of its input. *)
Record Form : Type := {
  description : string;
  amount : string;
  category : string;
  date : string
}.

(** What a submission does: the expense passed to [onAddExpense] if it is
    called, the form afterwards, and the notification. *)
Record Outcome : Type := {
  added : option Expense;
  form : Form;
  toast : Toast
}.

Definition nonEmpty (s : string) : bool := negb (String.eqb s "").

(** [handleSubmit], at the time [now] and with the categories of the
    page. *)
Definition handleSubmit (now : Z) (categories : list CustomCategory.t)
    (f : Form) : Outcome :=
  if negb (nonEmpty (Str.trim (description f)))
     || negb (nonEmpty (amount f))
     || isNaN (Number (amount f))
  then {| added := None; form := f; toast := InvalidInput |}
  else
    let suggestedCategory :=
      if nonEmpty (category f) then category f
      else smartCategorize (description f) categories in
    let expense :=
      Build_Expense
        (* id *) (pretty now)
        (* date *) (date f)
        (* description *) (Str.trim (description f))
        (* category *) suggestedCategory
        (* amount *) (Number (amount f)) in
    {| added := Some expense;
       form := {| description := ""; amount := ""; category := "";
                  date := Date.isoDate now |};
       toast := ExpenseAdded expense |}.

End ExpenseForm.

Module Index.

(** [addExpense]: [setExpenses(prev => [expense, ...prev])] *)
Definition addExpense (expense : Expense) (prev : list Expense) : list Expense :=
  expense :: prev.

(** [deleteExpense]: [setExpenses(prev => prev.filter(e => e.id !== id))] *)
Definition deleteExpense (id : string) (prev : list Expense) : list Expense :=
  List.filter (fun expense => negb (String.eqb (Expense_id expense) id)) prev.

(** The expense list of the page after the form is submitted. *)
Definition submit (now : Z) (categories : list CustomCategory.t)
    (f : ExpenseForm.Form) (expenses : list Expense) : list Expense :=
  match ExpenseForm.added (ExpenseForm.handleSubmit now categories f) with
  | Some expense => addExpense expense expenses
  | None => expenses
  end.

End Index.

(* ================================================================== *)
(** ** DashboardStats *)
(* ================================================================== *)

Module DashboardStats.

Local Open Scope string_scope.
Local Open Scope js_scope.

Section Component.

Variable now : Z.
Variable expenses : list Expense.
Variable budget : Budget.

Definition currentMonth : string := Date.isoMonth now.

Definition lastMonth : string :=
  match Date.setMonth (Some now) (Date.month now - 1) with
  | Some tv => Date.isoMonth tv
  | None => ""
  end.

Definition currentMonthExpenses : list Expense :=
  List.filter (fun expense => Str.startsWith (date expense) currentMonth)
              expenses.
Definition currentMonthTotal : number := sumAmounts currentMonthExpenses.

Definition lastMonthExpenses : list Expense :=
  List.filter (fun expense => Str.startsWith (date expense) lastMonth)
              expenses.
Definition lastMonthTotal : number := sumAmounts lastMonthExpenses.

Definition totalBudget : number :=
  foldl (fun sum amount => sum + or_else amount (lit 0)) (lit 0)
        (Object_values budget).

Definition spendingChange : number :=
  if lastMonthTotal >? lit 0
  then ((currentMonthTotal - lastMonthTotal) / lastMonthTotal) * lit 100
  else lit 0.

Definition categoryStats : gmap string number :=
  groupTotals category currentMonthExpenses.

Definition topCategories : list (string * number) :=
  take 3 (Array_sort (fun a b => b.2 - a.2) (map_to_list categoryStats)).

Definition budgetUsagePercentage : number :=
  if totalBudget >? lit 0
  then (currentMonthTotal / totalBudget) * lit 100
  else lit 0.

End Component.

End DashboardStats.

(* ================================================================== *)
(** ** ExportManager *)
(* ================================================================== *)

Module ExportManager.

Local Open Scope string_scope.

Inductive DateRange : Type := all | month | quarter.

Definition DateRange_name (r : DateRange) : string :=
  match r with
  | all => "all"
  | month => "month"
  | quarter => "quarter"
  end.

Section Component.

Variable now : Z.
Variable expenses : list Expense.
Variable dateRange : DateRange.

Definition getFilteredExpenses : list Expense :=
  match dateRange with
  | all => expenses
  | _ =>
      let startDate : Date.t := Some now in
      let startDate :=
        match dateRange with
        | month => Date.setDate (Date.setMonth startDate (Date.month now)) 1
        | quarter =>
            let quarter := Date.month now / 3 in
            Date.setDate (Date.setMonth startDate (quarter * 3)) 1
        | all => startDate
        end in
      List.filter
        (fun expense =>
           (Date.getTime (Date.parse (date expense))
            >=? Date.getTime startDate)%js)
        expenses
  end.

Definition headers : list string :=
  ["Date"; "Description"; "Category"; "Amount"].

(** One row of the file: the description is put between double quotes. *)
Definition csvRow (expense : Expense) : string :=
  Str.join ","
    [ date expense;
      String (ascii_of_N 34) (description expense) ++ String (ascii_of_N 34) "";
      category expense;
      toFixed (amount expense) 2 ].

Definition csvContent : string :=
  Str.join Str.nl
    (Str.join "," headers :: map csvRow getFilteredExpenses).

(** The name of the downloaded file. *)
Definition csvFileName : string :=
  "expenses-" ++ DateRange_name dateRange ++ "-" ++ Date.isoDate now ++ ".csv".

End Component.

End ExportManager.

Definition Expense_category (expense : Expense) : string := category expense.

(** [a % b]: the remainder of the division truncated towards zero; [NaN]
    when [a] is infinite or [b] is zero, and [a] when only [b] is
    infinite. *)
Definition rem (a b : number) : number :=
  match a, b with
  | NaN, _ | _, NaN => NaN
  | (PInf | NInf), _ => NaN
  | Fin x, (PInf | NInf) => Fin x
  | Fin x, Fin y =>
      if Qeq_bool y 0 then NaN
      else
        let q := (x / y)%Q in
        let n := if Qltb q 0 then Qceiling q else Qfloor q in
        Fin (x - y * inject_Z n)%Q
  end.

(* ================================================================== *)
(** ** ExpenseList *)
(* ================================================================== *)

Module ExpenseList.

Local Open Scope string_scope.
Local Open Scope js_scope.

Section Component.

(** [a.localeCompare(b)] follows the collation of the host; it is taken as
    given. *)
Variable localeCompare : string -> string -> number.

Variable expenses : list Expense.

(** The state hooks: the search box and the two selectors. *)
Variable searchTerm : string.
Variable filterCategory : string.
Variable sortBy : string.

Definition matches (expense : Expense) : bool :=
  let matchesSearch :=
    Str.includes (Str.toLowerCase (description expense))
                 (Str.toLowerCase searchTerm) in
  let matchesCategory :=
    String.eqb filterCategory "all"
    || String.eqb (category expense) filterCategory in
  matchesSearch && matchesCategory.

Definition compare (a b : Expense) : number :=
  if String.eqb sortBy "date" then
    Date.getTime (Date.parse (date b)) - Date.getTime (Date.parse (date a))
  else if String.eqb sortBy "amount" then amount b - amount a
  else if String.eqb sortBy "category" then
    localeCompare (category a) (category b)
  else lit 0.

Definition filteredExpenses : list Expense :=
  Array_sort compare (List.filter matches expenses).

Definition totalAmount : number := sumAmounts filteredExpenses.

End Component.

(** [handleDelete]: the expense list of the page after the delete button of
    [expense] is clicked. *)
Definition handleDelete (expense : Expense) (expenses : list Expense)
  : list Expense :=
  List.filter (fun e => negb (String.eqb (Expense_id e) (Expense_id expense)))
              expenses.

End ExpenseList.

(* ================================================================== *)
(** ** Voice input of the expense form *)
(* ================================================================== *)

Module VoiceInput.

Import Str.

Local Open Scope string_scope.

(** The longest prefix of characters satisfying [p], and the rest. *)
Fixpoint span (p : ascii -> bool) (l : list ascii) : list ascii * list ascii :=
  match l with
  | c :: l' =>
      if p c then let '(a, b) := span p l' in (c :: a, b) else ([], l)
  | [] => ([], [])
  end.

(** [l] without the prefix [pre], when it starts with it. *)
Fixpoint strip (pre l : list ascii) : option (list ascii) :=
  match pre, l with
  | [], _ => Some l
  | c :: pre', d :: l' => if Ascii.eqb c d then strip pre' l' else None
  | _ :: _, [] => None
  end.

(** The optional unit [(?:dollars?|bucks?|\$)?] at the head of [l]: the
    characters it matches. *)
Definition unitAt (l : list ascii) : list ascii :=
  let try (w : string) := strip (list_ascii_of_string w) l in
  match try "dollar" with
  | Some r =>
      match strip (list_ascii_of_string "s") r with
      | Some _ => list_ascii_of_string "dollars"
      | None => list_ascii_of_string "dollar"
      end
  | None =>
      match try "buck" with
      | Some r =>
          match strip (list_ascii_of_string "s") r with
          | Some _ => list_ascii_of_string "bucks"
          | None => list_ascii_of_string "buck"
          end
      | None =>
          match try "$" with
          | Some _ => list_ascii_of_string "$"
          | None => []
          end
      end
  end.

(** The match of [/(\d+(?:\.\d{2})?)\s*(?:dollars?|bucks?|\$)?/] that starts
    at the head of [l], which is a digit: group 1 and the whole match. *)
Definition matchHere (l : list ascii) : list ascii * list ascii :=
  let '(ds, r1) := span is_digit l in
  let '(frac, r2) :=
    match r1 with
    | dot :: d1 :: d2 :: r =>
        if (code dot =? 46)%N && is_digit d1 && is_digit d2
        then ([dot; d1; d2], r) else ([], r1)
    | _ => ([], r1)
    end in
  let '(ws, r3) := span is_space r2 in
  let group1 := (ds ++ frac)%list in
  (group1, (group1 ++ ws ++ unitAt r3)%list).

(** [text.match(...)]: the leftmost match, which starts at the first digit
    of the text. *)
Fixpoint matchAmount (l : list ascii) : option (list ascii * list ascii) :=
  match l with
  | c :: l' => if is_digit c then Some (matchHere l) else matchAmount l'
  | [] => None
  end.

(** [text.replace(sub, '')]: the text without the first occurrence of [sub]. *)
Fixpoint removeFirst (sub l : list ascii) : list ascii :=
  match strip sub l with
  | Some r => r
  | None =>
      match l with
      | c :: l' => c :: removeFirst sub l'
      | [] => []
      end
  end.

(** [handleVoiceResult]: the form after a transcript is received. *)
Definition handleVoiceResult (categories : list CustomCategory.t)
    (transcript : string) (f : ExpenseForm.Form) : ExpenseForm.Form :=
  let text := toLowerCase transcript in
  match matchAmount (list_ascii_of_string text) with
  | Some (group1, whole) =>
      let voiceAmount := string_of_list_ascii group1 in
      let descriptionPart :=
        trim (string_of_list_ascii
                (removeFirst whole (list_ascii_of_string text))) in
      let described :=
        if ExpenseForm.nonEmpty descriptionPart then descriptionPart
        else transcript in
      {| ExpenseForm.description := described;
         ExpenseForm.amount := voiceAmount;
         ExpenseForm.category :=
           ExpenseForm.smartCategorize described categories;
         ExpenseForm.date := ExpenseForm.date f |}
  | None =>
      {| ExpenseForm.description := transcript;
         ExpenseForm.amount := ExpenseForm.amount f;
         ExpenseForm.category := ExpenseForm.category f;
         ExpenseForm.date := ExpenseForm.date f |}
  end.

End VoiceInput.

(* ================================================================== *)
(** ** The summary of the PDF report *)
(* ================================================================== *)

Module ExportPDF.

Local Open Scope string_scope.
Local Open Scope js_scope.

Section Component.

Variable now : Z.
Variable expenses : list Expense.
Variable dateRange : ExportManager.DateRange.

Definition filteredExpenses : list Expense :=
  ExportManager.getFilteredExpenses now expenses dateRange.

Definition totalAmount : number := sumAmounts filteredExpenses.

(** [totalAmount / filteredExpenses.length || 0] *)
Definition avgExpense : number :=
  or_else (totalAmount / of_nat (length filteredExpenses)) (lit 0).

(** The three lines of the summary. *)
Definition summary : list string :=
  [ ("Total Expenses: $" ++ toFixed totalAmount 2)%string;
    ("Number of Transactions: " ++ pretty (length filteredExpenses))%string;
    ("Average Expense: $" ++ toFixed avgExpense 2)%string ].

End Component.

End ExportPDF.

(* ================================================================== *)
(** ** BudgetManager *)
(* ================================================================== *)

Module BudgetStatus.
Record t : Type := {
  percentage : number;
  status : string;
  message : string
}.
End BudgetStatus.

Module BudgetManager.

Local Open Scope string_scope.
Local Open Scope js_scope.

(** The values of the six categories of the manager. *)
Definition categories : list string :=
  ["food"; "transport"; "entertainment"; "bills"; "education"; "others"].

(** [handleBudgetChange(category, value)]: the inputs afterwards. *)
Definition handleBudgetChange (budgetInputs : Budget) (category value : string)
  : Budget :=
  <[category := or_else (Number value) (lit 0)]> budgetInputs.

(** [saveBudgets]: the budget handed to [onUpdateBudget]. *)
Definition saveBudgets (budgetInputs : Budget) : Budget := budgetInputs.

Section Component.

Variable now : Z.
Variable expenses : list Expense.
Variable budget : Budget.

(** Current month spending by category *)
Definition currentMonthSpending : Budget :=
  foldl (fun acc value =>
           let currentMonth := Date.isoMonth now in
           let spent :=
             sumAmounts
               (List.filter
                  (fun expense =>
                     String.eqb (category expense) value
                     && Str.startsWith (date expense) currentMonth)
                  expenses) in
           <[value := spent]> acc)
        ∅ categories.

Definition getBudgetStatus (category : string) : BudgetStatus.t :=
  let spent := or_default (currentMonthSpending !! category) (lit 0) in
  let budgetLimit := or_default (budget !! category) (lit 0) in
  if budgetLimit === lit 0 then
    {| BudgetStatus.percentage := lit 0; BudgetStatus.status := "no-budget";
       BudgetStatus.message := "No budget set" |}
  else
    let percentage := (spent / budgetLimit) * lit 100 in
    if percentage >=? lit 100 then
      {| BudgetStatus.percentage := percentage; BudgetStatus.status := "over";
         BudgetStatus.message := "Over budget!" |}
    else if percentage >=? lit 80 then
      {| BudgetStatus.percentage := percentage; BudgetStatus.status := "warning";
         BudgetStatus.message := "Approaching limit" |}
    else
      {| BudgetStatus.percentage := percentage; BudgetStatus.status := "good";
         BudgetStatus.message := "On track" |}.

(** The categories for which the effect shows a budget alert. *)
Definition budgetAlerts : list string :=
  List.filter
    (fun value => String.eqb (BudgetStatus.status (getBudgetStatus value)) "over")
    categories.

End Component.

End BudgetManager.

(* ================================================================== *)
(** ** GameificationPanel *)
(* ================================================================== *)

Module PanelAchievement.
(** Title, description and icon are display only. *)
Record t : Type := {
  id : string;
  unlocked : bool;
  progress : number;
  maxProgress : number
}.
End PanelAchievement.

Module GameificationPanel.

Local Open Scope string_scope.
Local Open Scope js_scope.

Section Component.

Variable now : Z.
Variable expenses : list Expense.
Variable budget : Budget.

Definition monthlyExpenses : list Expense :=
  List.filter (fun expense => Str.startsWith (date expense) (Date.isoMonth now))
              expenses.

(** What was spent this month in [category]. *)
Definition spentIn (category : string) : number :=
  sumAmounts
    (List.filter (fun expense => String.eqb (Expense_category expense) category)
                 monthlyExpenses).

(** The loop over the categories of the budget: the money saved and the
    points awarded for it (10 points per dollar saved). *)
Definition savedAndPoints : number * number :=
  foldl (fun '(totalSaved, totalPoints) category =>
           let budgetAmount := or_default (budget !! category) (lit 0) in
           let spent := spentIn category in
           if (budgetAmount >? lit 0) && (spent <? budgetAmount) then
             let saved := budgetAmount - spent in
             (totalSaved + saved, totalPoints + Math_floor (saved * lit 10))
           else (totalSaved, totalPoints))
        (lit 0, lit 0) (Object_keys budget).

Definition totalSaved : number := savedAndPoints.1.

(** With the bonus for tracking expenses. *)
Definition totalPoints : number :=
  savedAndPoints.2 + of_nat (length monthlyExpenses) * lit 5.

(** Every 1000 points = 1 level *)
Definition level : number := Math_floor (totalPoints / lit 1000) + lit 1.

(** The category has no budget or its spending is within it. *)
Definition withinBudget (category : string) : bool :=
  let budgetAmount := or_default (budget !! category) (lit 0) in
  (budgetAmount === lit 0) || (spentIn category <=? budgetAmount).

Definition achievements : list PanelAchievement.t :=
  let count := of_nat (length expenses) in
  let keys := Object_keys budget in
  [ {| PanelAchievement.id := "first_expense";
       PanelAchievement.unlocked := count >=? lit 1;
       PanelAchievement.progress := Math_min count (lit 1);
       PanelAchievement.maxProgress := lit 1 |};
    {| PanelAchievement.id := "budget_setter";
       PanelAchievement.unlocked := of_nat (length keys) >=? lit 6;
       PanelAchievement.progress := of_nat (length keys);
       PanelAchievement.maxProgress := lit 6 |};
    {| PanelAchievement.id := "expense_tracker";
       PanelAchievement.unlocked := count >=? lit 10;
       PanelAchievement.progress := Math_min count (lit 10);
       PanelAchievement.maxProgress := lit 10 |};
    {| PanelAchievement.id := "money_saver";
       PanelAchievement.unlocked := totalSaved >=? lit 100;
       PanelAchievement.progress := Math_min totalSaved (lit 100);
       PanelAchievement.maxProgress := lit 100 |};
    {| PanelAchievement.id := "budget_champion";
       PanelAchievement.unlocked := forallb withinBudget keys;
       PanelAchievement.progress :=
         of_nat (length (List.filter withinBudget keys));
       PanelAchievement.maxProgress :=
         Math_max (of_nat (length keys)) (lit 1) |};
    {| PanelAchievement.id := "level_up";
       PanelAchievement.unlocked := level >=? lit 5;
       PanelAchievement.progress := Math_min level (lit 5);
       PanelAchievement.maxProgress := lit 5 |} ].

(** What the panel shows once the effect has stored the statistics. *)
Definition pointsToNextLevel : number :=
  lit 1000 - rem totalPoints (lit 1000).
Definition levelProgress : number :=
  rem totalPoints (lit 1000) / lit 1000 * lit 100.

End Component.

End GameificationPanel.

(* ================================================================== *)
(** ** The insights of the coach *)
(* ================================================================== *)

Module FinancialInsight.
Inductive InsightType : Type := tip | warning | goal | achievement.
Record t : Type := {
  type : InsightType;
  title : string;
  description : string;
  actionable : bool
}.
End FinancialInsight.

Module AICoach.

Import FinancialInsight.

Local Open Scope string_scope.
Local Open Scope js_scope.

Section Component.

(** [Object.entries(o)], which enumerates the keys in the order of the
    engine. *)
Variable Object_entries : gmap string number -> list (string * number).

Variable now : Z.
Variable expenses : list Expense.
Variable budget : Budget.

Definition currentMonth : number := Date.getMonth (Some now).
Definition currentYear : number := Date.getFullYear (Some now).

Definition monthlyExpenses : list Expense :=
  List.filter (inMonth currentMonth currentYear) expenses.

Definition totalSpent : number := sumAmounts monthlyExpenses.
Definition totalBudget : number := sum (Object_values budget).

Definition categorySpending : gmap string number :=
  groupTotals category monthlyExpenses.

(** Budget analysis *)
Definition budgetInsight : list t :=
  if totalBudget >? lit 0 then
    let budgetUsage := (totalSpent / totalBudget) * lit 100 in
    if budgetUsage >? lit 90 then
      [ {| type := warning;
           title := "Budget Alert";
           description :=
             "You've used " ++ toFixed budgetUsage 1
             ++ "% of your monthly budget. Consider reducing discretionary spending.";
           actionable := true |} ]
    else if budgetUsage <? lit 70 then
      [ {| type := achievement;
           title := "Great Budget Control!";
           description :=
             "You're only using " ++ toFixed budgetUsage 1
             ++ "% of your budget. Consider saving the excess or increasing your emergency fund.";
           actionable := true |} ]
    else []
  else [].

(** Category-specific insights *)
Definition topCategory : option (string * number) :=
  head (Array_sort (fun a b => b.2 - a.2) (Object_entries categorySpending)).

Definition patternInsight : list t :=
  match topCategory with
  | Some (name, spent) =>
      if spent >? totalSpent * dec 4 10 then
        [ {| type := tip;
             title := "Spending Pattern Notice";
             description :=
               toFixed ((spent / totalSpent) * lit 100) 1
               ++ "% of your spending is on " ++ name
               ++ ". Consider if this aligns with your priorities.";
             actionable := true |} ]
      else []
  | None => []
  end.

(** Saving goals *)
Definition savingsInsight : list t :=
  if totalBudget >? totalSpent then
    let savings := totalBudget - totalSpent in
    [ {| type := goal;
         title := "Savings Opportunity";
         description :=
           "You could save $" ++ toFixed savings 2
           ++ " this month! Consider setting up automatic savings.";
         actionable := true |} ]
  else [].

(** Consistency insights *)
Definition expenseDays : nat := length (unique (map date monthlyExpenses)).

Definition trackingInsight : list t :=
  if (of_nat expenseDays <? lit 10) && (of_nat (length monthlyExpenses) >? lit 10)
  then
    [ {| type := tip;
         title := "Expense Tracking";
         description :=
           "You tend to make multiple purchases on the same days. Try spreading expenses more evenly for better budget control.";
         actionable := true |} ]
  else [].

Definition generateInsights : list t :=
  (budgetInsight ++ patternInsight ++ savingsInsight ++ trackingInsight)%list.

End Component.

End AICoach.

(* ================================================================== *)
(** ** Vocabulary of the statements and sample data *)
(* ================================================================== *)

(** The upcoming month opens a semester (September or January) and the
    category is education. *)
Definition semesterStart (now : Z) (category : string) : bool :=
  String.eqb category "education"
  && ((ExpensePrediction.nextMonth now === lit 8)
      || (ExpensePrediction.nextMonth now === lit 0))%js.

(** The upcoming month is in the holidays (December or January) and the
    category is entertainment. *)
Definition holidaySeason (now : Z) (category : string) : bool :=
  String.eqb category "entertainment"
  && ((ExpensePrediction.nextMonth now === lit 11)
      || (ExpensePrediction.nextMonth now === lit 0))%js.

(** The average scaled by the multiplier of the trend. *)
Definition trendAmount (t : Trend) (avgSpending : number) : number :=
  match t with
  | increasing => (avgSpending * dec 115 100)%js
  | decreasing => (avgSpending * dec 85 100)%js
  | stable => avgSpending
  end.

(** The seasonal multipliers, 1.3 and 1.2. *)
Definition seasonalAmount (now : Z) (category : string) (a : number) : number :=
  let a := if semesterStart now category then (a * dec 13 10)%js else a in
  if holidaySeason now category then (a * dec 12 10)%js else a.

(** The confidence of a trend, out of season and in a semester start. *)
Definition trendConfidence (t : Trend) : number :=
  match t with
  | increasing => lit 85
  | decreasing => lit 80
  | stable => lit 70
  end.

Definition semesterConfidence (t : Trend) : number :=
  match t with
  | increasing => lit 95
  | decreasing => lit 90
  | stable => lit 80
  end.

(** [a] may stand before [b] in an array sorted with [compareFn]. *)
Definition mayPrecede {A : Type} (compareFn : A -> A -> number) (a b : A) : Prop :=
  (compareFn a b <=? lit 0)%js = true.

(** Descending impact: [a] is listed before [b] only if its impact is at
    least that of [b]. *)
Definition impactAtLeast (a b : BudgetRecommendation.t) : Prop :=
  (ExpensePrediction.impactOrder (BudgetRecommendation.impact b)
   <=? ExpensePrediction.impactOrder (BudgetRecommendation.impact a))%js = true.

(** The clock of the examples reads 15 March 2025, midnight UTC. *)
Definition march15 : Z := 1741996800000.

Definition expenseOn (date category : string) (amount : Z) : Expense :=
  {| id := date; date := date; description := "sample";
     category := category; amount := lit amount |}.

(** One lunch this month, and a budget for food. *)
Definition lunch : Expense := expenseOn "2025-03-10" "food" 10.
Definition foodBudget : Budget := {[ "food"%string := lit 100 ]}.

(** Rent paid this month only. *)
Definition rent : Expense := expenseOn "2025-03-01" "bills" 150.

(** Transport: 100 in each of the last three months. *)
Definition steadyTransport : list Expense :=
  [ expenseOn "2025-03-03" "transport" 100;
    expenseOn "2025-02-03" "transport" 100;
    expenseOn "2025-01-03" "transport" 100 ].

(** Food: 150 this month, 100 in each of the two months before. *)
Definition risingFood : list Expense :=
  [ expenseOn "2025-03-10" "food" 150;
    expenseOn "2025-02-10" "food" 100;
    expenseOn "2025-01-10" "food" 100 ].

(** [a] is a finite number. *)
Definition finite (a : number) : Prop :=
  match a with
  | Fin _ => True
  | _ => False
  end.

(** The rational value of a finite number, and the exact sum of a list of
    finite numbers. *)
Definition toQ (a : number) : Q :=
  match a with
  | Fin q => q
  | _ => 0%Q
  end.

Definition Qsum (l : list number) : Q :=
  foldr (fun a s => (toQ a + s)%Q) 0%Q l.

(** The expenses whose key is [k]. *)
Definition withKey (key : Expense -> string) (k : string)
    (expenses : list Expense) : list Expense :=
  List.filter (fun e => String.eqb (key e) k) expenses.

(** What the accumulator holds under [k] once [done] has been processed. *)
Definition holds (key : Expense -> string) (acc : gmap string number)
    (done : list Expense) (k : string) : Prop :=
  match acc !! k with
  | None => withKey key k done = []
  | Some v => withKey key k done <> [] /\ v ≡ sumAmounts (withKey key k done)
  end.

(** What holds of the state of the component at any time. *)
Definition storeInvariant (st : EnhancedGamification.State) : Prop :=
  EnhancedGamification.streakCount st = lit 0 /\
  between 0 800 (EnhancedGamification.totalPoints st) /\
  NoDup (EnhancedGamification.unlockedRewards st) /\
  ~ In "premium-insights"%string (EnhancedGamification.unlockedRewards st).

(** A keyword of the category occurs in the lowercased description. *)
Definition keywordHit (description : string) (c : CustomCategory.t) : bool :=
  existsb (fun keyword => Str.includes (Str.toLowerCase description) keyword)
          (CustomCategory.keywords c).

(** Descending amounts. *)
Definition amountAtLeast (a b : Expense) : Prop :=
  (amount b <=? amount a)%js = true.

(** What was spent in the category [value] in the month of [now]. *)
Definition spentThisMonth (now : Z) (expenses : list Expense) (value : string)
  : number :=
  sumAmounts
    (List.filter
       (fun expense =>
          String.eqb (category expense) value
          && Str.startsWith (date expense) (Date.isoMonth now))
       expenses).

(** The shape of an amount heard: digits, then nothing or a dot and two
    digits. *)
Definition amountShape (g : list ascii) : Prop :=
  exists c ds frac,
    g = (c :: ds ++ frac)%list /\ Forall (fun d => Str.is_digit d = true) (c :: ds) /\
    (frac = [] \/
     exists d1 d2, frac = ["."%char; d1; d2] /\
                   Str.is_digit d1 = true /\ Str.is_digit d2 = true).

(** The types and the titles of a list of insights. *)
Definition typesOf (insights : list FinancialInsight.t)
  : list FinancialInsight.InsightType :=
  map FinancialInsight.type insights.
Definition titlesOf (insights : list FinancialInsight.t) : list string :=
  map FinancialInsight.title insights.

(** A sample with two categories this month, and a budget of 1000. *)
Definition twoCategories : list Expense :=
  [ expenseOn "2025-03-10" "food" 60; expenseOn "2025-03-11" "bills" 40 ].
(* ================================================================== *)
(** * Properties *)
(* ================================================================== *)

(** ** Facts about numbers *)

Section NumberFacts.

Local Open Scope Q_scope.

Lemma Qltb_spec (x y : Q) : reflect (x < y) (Qltb x y).
Proof.
  unfold Qltb. destruct (x ?= y) eqn:E; constructor;
    [apply Qeq_alt in E | apply Qlt_alt in E | apply Qgt_alt in E]; lra.
Qed.

Lemma Qleb_spec (x y : Q) : reflect (x <= y) (Qleb x y).
Proof.
  unfold Qleb. destruct (x ?= y) eqn:E; constructor;
    [apply Qeq_alt in E | apply Qlt_alt in E | apply Qgt_alt in E]; lra.
Qed.

Lemma Qeqb_spec (x y : Q) : reflect (x == y) (Qeq_bool x y).
Proof.
  destruct (Qeq_bool x y) eqn:E; constructor.
  - by apply Qeq_bool_iff.
  - intros H. apply Qeq_bool_iff in H. congruence.
Qed.

Lemma nonneg_Fin (a : number) : nonneg a -> exists x, a = Fin x /\ 0 <= x.
Proof. destruct a; simpl; try tauto. eauto. Qed.

Lemma nonneg_add (a b : number) : nonneg a -> nonneg b -> nonneg (a + b).
Proof. destruct a, b; simpl; try tauto. lra. Qed.

Lemma nonneg_lit (n : Z) : (0 <= n)%Z -> nonneg (lit n).
Proof. intros H. simpl. change 0 with (inject_Z 0). by rewrite <- Zle_Qle. Qed.

Lemma nonneg_or_else (a : number) : nonneg a -> nonneg (or_else a (lit 0)).
Proof.
  unfold or_else. destruct (truthy a); [done|]. intros _. by apply nonneg_lit.
Qed.

Lemma add_NaN_r (a : number) : (a + NaN)%js = NaN.
Proof. by destruct a. Qed.

Lemma mul_NaN_l (a : number) : (NaN * a)%js = NaN.
Proof. by destruct a. Qed.

Lemma Qsqrt_nonneg (x : Q) : 0 <= Qsqrt x.
Proof.
  unfold Qsqrt, Qle. simpl. rewrite Z.mul_1_r. apply Z.sqrt_nonneg.
Qed.

(** [Math.max(0, v)] of a finite [v] bounded above by [hi]. *)
Lemma Math_max_0_between (v hi : Q) :
  0 <= hi -> v <= hi -> between 0 hi (Math_max (lit 0) (Fin v)).
Proof.
  intros Hhi Hv. unfold Math_max, lit, of_Z, lt. simpl.
  destruct (Qltb_spec (inject_Z 0) v) as [H|H]; simpl;
    change (inject_Z 0) with 0 in *; lra.
Qed.

(** [Math.min(hi, v)] of a finite non-negative [v]. *)
Lemma Math_min_between (v hi : Q) :
  0 <= hi -> 0 <= v -> between 0 hi (Math_min (Fin hi) (Fin v)).
Proof.
  intros Hhi Hv. unfold Math_min, lt.
  destruct (Qltb_spec v hi) as [H|H]; simpl; lra.
Qed.

Lemma Math_round_between (t : Q) (hi : Z) :
  0 <= t -> t <= inject_Z hi ->
  between 0 (inject_Z hi) (Math_round (Fin t)).
Proof.
  intros H0 Hhi. unfold Math_round, between. split.
  - change 0 with (inject_Z 0). rewrite <- Zle_Qle.
    transitivity (Qfloor 0); [done|]. apply Qfloor_resp_le. lra.
  - rewrite <- Zle_Qle.
    assert (E : (Qfloor (inject_Z hi + (1 # 2)) = hi)%Z).
    { apply Z.le_antisymm.
      - cut (Qfloor (inject_Z hi + (1 # 2)) < hi + 1)%Z; [lia|].
        rewrite Zlt_Qlt. eapply Qle_lt_trans; [apply Qfloor_le|].
        rewrite inject_Z_plus. change (inject_Z 1) with 1. lra.
      - rewrite <- (Qfloor_Z hi) at 1. apply Qfloor_resp_le. lra. }
    rewrite <- E. apply Qfloor_resp_le. lra.
Qed.

End NumberFacts.

(** ** Sums over lists and dictionaries *)

Section Sums.

Lemma foldl_nonneg {A : Type} (P : A -> Prop) (f : number -> A -> number)
    (l : list A) (acc : number) :
  (forall s x, nonneg s -> P x -> nonneg (f s x)) ->
  nonneg acc -> Forall P l -> nonneg (foldl f acc l).
Proof.
  intros Hf. revert acc.
  induction l as [|x l IH]; intros acc Hacc Hl; simpl; [done|].
  inversion Hl; subst. apply IH; auto.
Qed.

Lemma sum_nonneg (l : list number) : Forall nonneg l -> nonneg (sum l).
Proof.
  intros. apply (foldl_nonneg nonneg); auto using nonneg_add.
  by apply (nonneg_lit 0).
Qed.

Lemma sumAmounts_nonneg (expenses : list Expense) :
  Forall (fun e => nonneg (amount e)) expenses -> nonneg (sumAmounts expenses).
Proof.
  intros. apply (foldl_nonneg (fun e => nonneg (amount e))); auto using nonneg_add.
  by apply nonneg_lit.
Qed.

Lemma groupTotals_nonneg (key : Expense -> string) (expenses : list Expense) :
  Forall (fun e => nonneg (amount e)) expenses ->
  map_Forall (fun _ v => nonneg v) (groupTotals key expenses).
Proof.
  unfold groupTotals.
  assert (G : forall acc : gmap string number,
             map_Forall (fun _ v => nonneg v) acc ->
             Forall (fun e => nonneg (amount e)) expenses ->
             map_Forall (fun _ v => nonneg v)
               (foldl (fun acc e =>
                  <[key e := (or_default (acc !! key e) (lit 0) + amount e)%js]> acc)
                  acc expenses)).
  { induction expenses as [|e l IH]; intros acc Hacc Hl; simpl; [done|].
    inversion Hl; subst. apply IH; [|done].
    apply map_Forall_insert_2; [|done].
    apply nonneg_add; [|done].
    destruct (acc !! key e) as [a|] eqn:E; simpl.
    - apply nonneg_or_else. by apply (Hacc _ _ E).
    - by apply nonneg_lit. }
  intros. apply G; [apply map_Forall_empty|done].
Qed.

Lemma Object_values_Forall (P : number -> Prop) (o : gmap string number) :
  map_Forall (fun _ v => P v) o -> Forall P (Object_values o).
Proof.
  intros H. unfold Object_values. apply Forall_fmap.
  apply map_Forall_to_list in H.
  eapply Forall_impl; [exact H|]. by intros [k v].
Qed.

Lemma filter_Forall {A : Type} (P : A -> Prop) (f : A -> bool) (l : list A) :
  Forall P l -> Forall P (List.filter f l).
Proof.
  induction 1; simpl; [constructor|]. destruct (f x); auto.
Qed.

End Sums.

(** ** The health score *)

Section HealthScore.

Import FinancialHealthScore.
Local Open Scope Q_scope.

Lemma nonneg_div_pos (a : number) (y : Q) :
  nonneg a -> 0 < y -> nonneg (a / Fin y).
Proof.
  intros (x & -> & Hx)%nonneg_Fin Hy. simpl.
  destruct (Qeqb_spec y 0) as [E|_]; [lra|]. simpl.
  apply Qle_shift_div_l; lra.
Qed.

Lemma Qsquare_nonneg (x : Q) : 0 <= x * (x * 1).
Proof. nra. Qed.

Lemma of_nat_S_pos (n : nat) : 0 < inject_Z (Z.of_nat (S n)).
Proof. change 0 with (inject_Z 0). rewrite <- Zlt_Qlt. lia. Qed.

(** The formula of the budget adherence score. *)
Lemma budgetScore_formula_range (ts tb : Q) :
  0 <= ts -> 0 <= tb ->
  between 0 200
    (if (Fin tb >? lit 0)%js
     then Math_max (lit 0)
            (lit 100 - ((Fin ts / Fin tb) * lit 100 - lit 100))%js
     else lit 50).
Proof.
  intros Hs Hb. unfold gt, lt, lit, of_Z.
  destruct (Qltb_spec (inject_Z 0) tb) as [Hpos|_].
  - unfold inject_Z in Hpos. unfold div.
    destruct (Qeqb_spec tb 0) as [E|_]; [lra|].
    assert (0 <= ts / tb) by (apply Qle_shift_div_l; lra).
    apply Math_max_0_between; unfold inject_Z; lra.
  - unfold between, inject_Z. lra.
Qed.

(** The formula of the emergency readiness score. *)
Lemma emergencyScore_formula_range (ts tb : Q) :
  0 <= ts -> 0 <= tb ->
  let avgMonthlySpending := or_else (Fin ts) (lit 100) in
  between 0 100
    (if (Fin tb >=? avgMonthlySpending * dec 5 10)%js
     then lit 100
     else (Fin tb / (avgMonthlySpending * dec 5 10)) * lit 100)%js.
Proof.
  intros Hs Hb. unfold or_else, truthy, lit, of_Z, dec.
  assert (G : forall m, 0 < m ->
    between 0 100
      (if (Fin tb >=? Fin m * Fin (5 # 10))%js
       then Fin (inject_Z 100)
       else (Fin tb / (Fin m * Fin (5 # 10))) * Fin (inject_Z 100))%js).
  { intros m Hm. unfold ge, le, mul.
    destruct (Qleb_spec (m * (5 # 10)) tb) as [_|Hlt].
    - unfold between, inject_Z. lra.
    - unfold div. destruct (Qeqb_spec (m * (5 # 10)) 0) as [E|_]; [lra|].
      unfold between, inject_Z.
      assert (0 <= tb / (m * (5 # 10))) by (apply Qle_shift_div_l; lra).
      assert (tb / (m * (5 # 10)) <= 1) by (apply Qle_shift_div_r; lra).
      lra. }
  destruct (Qeqb_spec ts 0) as [E|Hne]; simpl negb; cbv iota.
  - apply G. unfold inject_Z. lra.
  - apply G. lra.
Qed.

Section Component.

Variable now : Z.
Variable expenses : list Expense.
Variable budget : Budget.
Hypothesis amounts_nonneg : Forall (fun e => nonneg (amount e)) expenses.
Hypothesis limits_nonneg : map_Forall (fun _ limit => nonneg limit) budget.

Lemma totalSpent_nonneg : nonneg (totalSpent now expenses).
Proof. apply sumAmounts_nonneg, filter_Forall, amounts_nonneg. Qed.

Lemma totalBudget_nonneg : nonneg (totalBudget budget).
Proof. apply sum_nonneg, Object_values_Forall, limits_nonneg. Qed.

Lemma spendingValues_nonneg : Forall nonneg (spendingValues now expenses).
Proof.
  apply Object_values_Forall, groupTotals_nonneg, filter_Forall, amounts_nonneg.
Qed.

Lemma budgetScore_range : between 0 200 (budgetScore now expenses budget).
Proof.
  unfold budgetScore.
  destruct (nonneg_Fin _ totalSpent_nonneg) as (ts & -> & Hs).
  destruct (nonneg_Fin _ totalBudget_nonneg) as (tb & -> & Hb).
  by apply budgetScore_formula_range.
Qed.

Lemma emergencyScore_range : between 0 100 (emergencyScore now expenses budget).
Proof.
  unfold emergencyScore, avgMonthlySpending.
  destruct (nonneg_Fin _ totalSpent_nonneg) as (ts & -> & Hs).
  destruct (nonneg_Fin _ totalBudget_nonneg) as (tb & -> & Hb).
  by apply emergencyScore_formula_range.
Qed.

Lemma diversificationScore_range :
  between 0 100 (diversificationScore now expenses).
Proof.
  unfold diversificationScore, of_nat, of_Z, dec, mul, lit.
  apply (Math_min_between _ 100); [lra|].
  assert (0 <= inject_Z (Z.of_nat (categoryCount now expenses))).
  { change 0 with (inject_Z 0). rewrite <- Zle_Qle. lia. }
  nra.
Qed.

Lemma variance_nonneg (a : Q) (values : list number) (n : nat) :
  Forall nonneg values ->
  nonneg (foldl (fun sum val => sum + Math_pow (val - Fin a) 2)%js (lit 0) values
          / of_nat (S n)).
Proof.
  intros Hv. apply nonneg_div_pos; [|apply of_nat_S_pos].
  apply (foldl_nonneg nonneg); [|by apply nonneg_lit|done].
  intros s val Hs (v & -> & _)%nonneg_Fin. apply nonneg_add; [done|].
  unfold Math_pow, sub, neg, add, mul, nonneg. apply Qsquare_nonneg.
Qed.

Lemma consistencyScore_range :
  (lit 0 <? avgDailySpending now expenses)%js = true ->
  between 0 100 (consistencyScore now expenses).
Proof.
  unfold consistencyScore, variance, avgDailySpending.
  pose proof spendingValues_nonneg as Hv.
  destruct (length (spendingValues now expenses)) as [|n]; simpl negb; cbv iota.
  { intros H. by vm_compute in H. }
  destruct (nonneg_Fin _ (sum_nonneg _ Hv)) as (s & -> & Hs).
  set (a := s / inject_Z (Z.of_nat (S n))).
  assert (Ea : (Fin s / of_nat (S n))%js = Fin a).
  { unfold of_nat, of_Z, div.
    destruct (Qeqb_spec (inject_Z (Z.of_nat (S n))) 0) as [E|_]; [|done].
    pose proof (of_nat_S_pos n). lra. }
  rewrite Ea. unfold lt at 1. unfold lit at 1. unfold of_Z at 1. intros Ha.
  destruct (Qltb_spec (inject_Z 0) a) as [Hpos|]; [|done]. unfold inject_Z in Hpos.
  destruct (nonneg_Fin _ (variance_nonneg a _ n Hv)) as (w & -> & Hw).
  unfold Math_sqrt. destruct (Qltb_spec w 0) as [?|_]; [lra|].
  pose proof (Qsqrt_nonneg w) as Hq.
  unfold div. destruct (Qeqb_spec a 0) as [?|_]; [lra|].
  assert (0 <= Qsqrt w / a) by (apply Qle_shift_div_l; lra).
  apply Math_max_0_between; unfold inject_Z; lra.
Qed.

Lemma overallScore_eq :
  overallScore now expenses budget =
  Math_round (lit 0 + budgetScore now expenses budget * dec 4 10
              + consistencyScore now expenses * dec 25 100
              + diversificationScore now expenses * dec 2 10
              + emergencyScore now expenses budget * dec 15 100)%js.
Proof. reflexivity. Qed.

Lemma overallScore_range :
  (lit 0 <? avgDailySpending now expenses)%js = true ->
  between 0 140 (overallScore now expenses budget).
Proof.
  intros Ha. rewrite overallScore_eq.
  pose proof budgetScore_range as Hb.
  pose proof (consistencyScore_range Ha) as Hc.
  pose proof diversificationScore_range as Hd.
  pose proof emergencyScore_range as He.
  destruct (budgetScore _ _ _) as [| | |b]; try done.
  destruct (consistencyScore _ _) as [| | |c]; try done.
  destruct (diversificationScore _ _) as [| | |d]; try done.
  destruct (emergencyScore _ _ _) as [| | |e]; try done.
  simpl in Hb, Hc, Hd, He.
  unfold lit, of_Z, dec, mul, add.
  apply (Math_round_between _ 140); unfold inject_Z; lra.
Qed.

End Component.

End HealthScore.

(** ** Claims about the health score *)




(** C2 (the code at the failing input).  With no expense at all, whatever
    the clock and the budget, the spending consistency score is [NaN]
    ([Math.sqrt(0) / 0] is not guarded), and so is the composite score. *)
Theorem consistencyScore_NaN_without_spending (now : Z) (budget : Budget) :
  FinancialHealthScore.avgDailySpending now [] = lit 0 /\
  FinancialHealthScore.consistencyScore now [] = NaN /\
  FinancialHealthScore.overallScore now [] budget = NaN.
Proof.
  assert (E : FinancialHealthScore.consistencyScore now [] = NaN)
    by (vm_compute; reflexivity).
  split; [reflexivity|]. split; [exact E|].
  rewrite overallScore_eq, E. rewrite mul_NaN_l, add_NaN_r.
  by destruct (_ * _)%js.
Qed.

(** ** The prediction heuristic *)

Section Prediction.

Local Open Scope string_scope.

Lemma monthlySpending_length (now : Z) (expenses : list Expense) (category : string) :
  length (ExpensePrediction.monthlySpendingOf now expenses category) = 3%nat.
Proof. reflexivity. Qed.

(** The trend of a series of three months. *)
Lemma trendOf_three (a b c : number) :
  ExpensePrediction.trendOf [a; b; c] =
    if (a >? c * dec 11 10)%js then increasing
    else if (a <? c * dec 9 10)%js then decreasing
    else stable.
Proof. reflexivity. Qed.

Lemma monthlySpending_three (now : Z) (expenses : list Expense) (category : string) :
  exists a b c, ExpensePrediction.monthlySpendingOf now expenses category = [a; b; c].
Proof. eexists _, _, _. reflexivity. Qed.

(** The fields of a prediction, by cases on the trend and on the season. *)
Lemma predict_fields (now : Z) (expenses : list Expense) (category : string) :
  let series := ExpensePrediction.monthlySpendingOf now expenses category in
  let p := ExpensePrediction.predict now expenses category in
  Prediction.category p = category /\
  Prediction.trend p = ExpensePrediction.trendOf series /\
  Prediction.confidence p =
    (if semesterStart now category
     then semesterConfidence (Prediction.trend p)
     else trendConfidence (Prediction.trend p)) /\
  Prediction.predictedAmount p =
    Math_max (lit 0)
      (seasonalAmount now category
         (trendAmount (Prediction.trend p) (sum series / lit 3)%js)).
Proof.
  intros series p. subst p. unfold ExpensePrediction.predict.
  fold series. unfold seasonalAmount, semesterStart, holidaySeason.
  change (of_nat (length series)) with (lit 3).
  change (3 <=? length series)%nat with true. cbv iota.
  destruct (ExpensePrediction.trendOf series);
  destruct (String.eqb category "education"
            && ((ExpensePrediction.nextMonth now === lit 8)
                || (ExpensePrediction.nextMonth now === lit 0))%js);
  destruct (String.eqb category "entertainment"
            && ((ExpensePrediction.nextMonth now === lit 11)
                || (ExpensePrediction.nextMonth now === lit 0))%js);
  repeat split.
Qed.

(** Every prediction shown is the prediction of a category of the expense
    list. *)
Lemma predictions_of_categories (now : Z) (expenses : list Expense) (p : Prediction.t) :
  In p (ExpensePrediction.predictions now expenses) ->
  exists e, In e expenses /\
            p = ExpensePrediction.predict now expenses (category e).
Proof.
  unfold ExpensePrediction.predictions, ExpensePrediction.categoryPredictions.
  intros [Hp _]%filter_In. apply in_map_iff in Hp as (c & <- & Hc).
  assert (G : forall (l seen : list string) x,
    In x (foldl (fun seen x => if decide (x ∈ seen) then seen else (seen ++ [x])%list) seen l) ->
    In x seen \/ In x l).
  { induction l as [|y l IH]; simpl; intros seen x Hx; [tauto|].
    apply IH in Hx as [Hx|Hx]; [|tauto].
    destruct (decide (y ∈ seen)); [tauto|].
    apply in_app_iff in Hx as [Hx|[Hx|[]]]; tauto. }
  apply G in Hc as [[]|Hc]. apply in_map_iff in Hc as (e & <- & He). eauto.
Qed.

End Prediction.

(** ** Claims about the prediction heuristic *)





(** ** Sorting and the budget recommendations *)

Section Sorting.

Context {A : Type} (compareFn : A -> A -> number).

Lemma sort_insert_Permutation (x : A) (l : list A) :
  sort_insert compareFn x l ≡ₚ x :: l.
Proof.
  induction l as [|y l IH]; simpl; [done|].
  destruct (_ <=? _)%js; [done|]. rewrite IH. apply Permutation_swap.
Qed.

Lemma Array_sort_Permutation (l : list A) : Array_sort compareFn l ≡ₚ l.
Proof.
  induction l as [|x l IH]; simpl; [done|].
  rewrite sort_insert_Permutation. by f_equiv.
Qed.

Hypothesis total : forall a b, mayPrecede compareFn a b \/ mayPrecede compareFn b a.
Hypothesis trans : forall a b c, mayPrecede compareFn a b -> mayPrecede compareFn b c -> mayPrecede compareFn a c.

Lemma sort_insert_sorted (x : A) (l : list A) :
  StronglySorted (mayPrecede compareFn) l ->
  StronglySorted (mayPrecede compareFn) (sort_insert compareFn x l).
Proof.
  induction 1 as [|y l Hl IH Hy]; simpl.
  - repeat constructor.
  - destruct (compareFn x y <=? lit 0)%js eqn:E.
    + constructor; [by constructor|]. constructor; [done|].
      eapply Forall_impl; [exact Hy|]. intros z Hz. by apply (trans x y z).
    + constructor; [done|].
      rewrite sort_insert_Permutation. constructor; [|done].
      destruct (total x y) as [H'|H']; [|done].
      unfold mayPrecede in H'. congruence.
Qed.

Lemma StronglySorted_weaken (R S : A -> A -> Prop) (l : list A) :
  (forall a b, R a b -> S a b) -> StronglySorted R l -> StronglySorted S l.
Proof.
  intros HRS. induction 1 as [|x l Hl IH Hx]; constructor; [done|].
  eapply Forall_impl; [exact Hx|]. intros y. apply HRS.
Qed.

Lemma Array_sort_sorted (l : list A) :
  StronglySorted (mayPrecede compareFn) (Array_sort compareFn l).
Proof.
  induction l as [|x l IH]; simpl; [constructor|]. by apply sort_insert_sorted.
Qed.

End Sorting.

Section Recommendations.

Local Open Scope string_scope.

Lemma mayPrecede_byImpact (a b : BudgetRecommendation.t) :
  mayPrecede ExpensePrediction.byImpact a b <-> impactAtLeast a b.
Proof.
  unfold mayPrecede, impactAtLeast, ExpensePrediction.byImpact.
  destruct (BudgetRecommendation.impact a), (BudgetRecommendation.impact b);
    vm_compute; tauto.
Qed.

Lemma budgetRecommendations_sorted (now : Z) (expenses : list Expense) (budget : Budget) :
  StronglySorted impactAtLeast
    (ExpensePrediction.budgetRecommendations now expenses budget).
Proof.
  unfold ExpensePrediction.budgetRecommendations.
  eapply StronglySorted_weaken;
    [|apply Array_sort_sorted].
  - intros a b. apply mayPrecede_byImpact.
  - intros a b. rewrite !mayPrecede_byImpact. unfold impactAtLeast.
    destruct (BudgetRecommendation.impact a), (BudgetRecommendation.impact b);
      vm_compute; tauto.
  - intros a b c. rewrite !mayPrecede_byImpact. unfold impactAtLeast.
    destruct (BudgetRecommendation.impact a), (BudgetRecommendation.impact b),
             (BudgetRecommendation.impact c); vm_compute; congruence.
Qed.

(** The recommendation for one prediction, by cases in the order of the
    source. *)
Lemma recommend_rule (budget : Budget) (p : Prediction.t) :
  let current := or_default (budget !! Prediction.category p) (lit 0) in
  let predicted := Prediction.predictedAmount p in
  let r := ExpensePrediction.recommend budget p in
  BudgetRecommendation.category r = Prediction.category p /\
  BudgetRecommendation.currentBudget r = current /\
  ((current === lit 0)%js = true ->
     BudgetRecommendation.recommendedBudget r = (predicted * dec 12 10)%js /\
     BudgetRecommendation.impact r = high) /\
  ((current === lit 0)%js = false ->
   (predicted >? current * dec 11 10)%js = true ->
     BudgetRecommendation.recommendedBudget r = (predicted * dec 115 100)%js /\
     BudgetRecommendation.impact r = high) /\
  ((current === lit 0)%js = false ->
   (predicted >? current * dec 11 10)%js = false ->
   (predicted <? current * dec 8 10)%js = true ->
     BudgetRecommendation.recommendedBudget r = (predicted * dec 11 10)%js /\
     BudgetRecommendation.impact r = medium) /\
  ((current === lit 0)%js = false ->
   (predicted >? current * dec 11 10)%js = false ->
   (predicted <? current * dec 8 10)%js = false ->
     BudgetRecommendation.recommendedBudget r = current /\
     BudgetRecommendation.impact r = low).
Proof.
  intros current predicted r. subst r. unfold ExpensePrediction.recommend.
  fold current predicted.
  destruct (current === lit 0)%js; [|destruct (predicted >? _)%js;
    [|destruct (predicted <? _)%js]]; simpl;
    repeat split; intros; congruence.
Qed.

End Recommendations.


(** ** Applying recommendations to the budget *)

Section Apply.

Local Abbreviation overwrite :=
  (fun (newBudget : Budget) (rec : BudgetRecommendation.t) =>
     match BudgetRecommendation.impact rec with
     | high => <[BudgetRecommendation.category rec :=
                   BudgetRecommendation.recommendedBudget rec]> newBudget
     | _ => newBudget
     end).

Lemma unique_NoDup (l : list string) : NoDup (unique l).
Proof.
  unfold unique.
  assert (G : forall seen, NoDup seen ->
    NoDup (foldl (fun seen x => if decide (x ∈ seen) then seen else seen ++ [x])
                 seen l)).
  { induction l as [|x l IH]; simpl; intros seen Hs; [done|].
    apply IH. destruct (decide (x ∈ seen)); [done|].
    apply NoDup_app. split; [done|]. split; [|apply NoDup_singleton].
    intros y Hy ->%list_elem_of_singleton. done. }
  apply G, NoDup_nil_2.
Qed.

Lemma predict_filter_NoDup (now : Z) (expenses : list Expense)
    (f : Prediction.t -> bool) (cats : list string) :
  NoDup cats ->
  NoDup (map Prediction.category
             (List.filter f (map (ExpensePrediction.predict now expenses) cats))).
Proof.
  induction cats as [|c cats IH]; intros Hnd; [constructor|].
  apply NoDup_cons in Hnd as [Hc Hnd].
  change (map (ExpensePrediction.predict now expenses) (c :: cats))
    with (ExpensePrediction.predict now expenses c
          :: map (ExpensePrediction.predict now expenses) cats).
  change (List.filter f (?x :: ?l))
    with (if f x then x :: List.filter f l else List.filter f l).
  destruct (f _); [|by apply IH].
  change (map Prediction.category (?x :: ?l))
    with (Prediction.category x :: map Prediction.category l).
  apply NoDup_cons. split; [|by apply IH].
  destruct (predict_fields now expenses c) as (-> & _).
  intros (p & Ep & Hp)%list_elem_of_fmap. apply Hc.
  apply list_elem_of_In, filter_In in Hp as [Hp _].
  apply in_map_iff in Hp as (c' & <- & Hc').
  destruct (predict_fields now expenses c') as (E & _). rewrite E in Ep.
  subst. by apply list_elem_of_In.
Qed.

Lemma predictions_categories_NoDup (now : Z) (expenses : list Expense) :
  NoDup (map Prediction.category (ExpensePrediction.predictions now expenses)).
Proof. apply predict_filter_NoDup, unique_NoDup. Qed.

Lemma recommendations_categories_NoDup (now : Z) (expenses : list Expense) (budget : Budget) :
  NoDup (map BudgetRecommendation.category
             (ExpensePrediction.budgetRecommendations now expenses budget)).
Proof.
  unfold ExpensePrediction.budgetRecommendations.
  rewrite Array_sort_Permutation, map_map.
  erewrite map_ext; [apply predictions_categories_NoDup|].
  intros p. apply (recommend_rule budget p).
Qed.

Lemma overwrite_frame (recs : list BudgetRecommendation.t) (b : Budget) (k : string) :
  (forall r, r ∈ recs -> BudgetRecommendation.impact r = high ->
             BudgetRecommendation.category r <> k) ->
  foldl overwrite b recs !! k = b !! k.
Proof.
  revert b. induction recs as [|r recs IH]; intros b H; simpl; [done|].
  rewrite IH.
  - destruct (BudgetRecommendation.impact r) eqn:E; try done.
    apply lookup_insert_ne, H; [left|done].
  - intros r' Hr'. apply H. by right.
Qed.

Lemma overwrite_hit (recs : list BudgetRecommendation.t) (b : Budget)
    (r : BudgetRecommendation.t) :
  NoDup (map BudgetRecommendation.category recs) ->
  r ∈ recs -> BudgetRecommendation.impact r = high ->
  foldl overwrite b recs !! BudgetRecommendation.category r
    = Some (BudgetRecommendation.recommendedBudget r).
Proof.
  revert b. induction recs as [|r0 recs IH]; intros b Hnd Hr Hi; simpl.
  { by apply elem_of_nil in Hr. }
  simpl in Hnd. apply NoDup_cons in Hnd as [H0 Hnd].
  apply elem_of_cons in Hr as [->|Hr]; [|by apply IH].
  rewrite overwrite_frame.
  - rewrite Hi. apply lookup_insert_eq.
  - intros r' Hr' _ E. apply H0. rewrite <- E.
    by apply list_elem_of_fmap_2.
Qed.

End Apply.

(** C9.  [applyRecommendation] hands over a budget in which the category of
    the recommendation holds the recommended limit and every other category
    reads as before.  [applyAllRecommendations] hands over a budget in which
    the category of every high-impact recommendation holds its recommended
    limit and every category that is not the category of a high-impact
    recommendation reads as before. *)
Theorem apply_recommendations_frame
    (now : Z) (expenses : list Expense) (budget : Budget) :
  (forall (rec : BudgetRecommendation.t) (k : string),
     k <> BudgetRecommendation.category rec ->
     ExpensePrediction.applyRecommendation budget rec !! k = budget !! k) /\
  (forall rec : BudgetRecommendation.t,
     ExpensePrediction.applyRecommendation budget rec
       !! BudgetRecommendation.category rec
     = Some (BudgetRecommendation.recommendedBudget rec)) /\
  (forall k : string,
     (forall r, r ∈ ExpensePrediction.budgetRecommendations now expenses budget ->
                BudgetRecommendation.impact r = high ->
                BudgetRecommendation.category r <> k) ->
     ExpensePrediction.applyAllRecommendations now expenses budget !! k
     = budget !! k) /\
  (forall r : BudgetRecommendation.t,
     r ∈ ExpensePrediction.budgetRecommendations now expenses budget ->
     BudgetRecommendation.impact r = high ->
     ExpensePrediction.applyAllRecommendations now expenses budget
       !! BudgetRecommendation.category r
     = Some (BudgetRecommendation.recommendedBudget r)).
Proof.
  split; [|split; [|split]].
  - intros rec k Hk. unfold ExpensePrediction.applyRecommendation.
    by apply lookup_insert_ne.
  - intros rec. apply lookup_insert_eq.
  - intros k Hk. by apply overwrite_frame.
  - intros r Hr Hi. apply overwrite_hit; [|done..].
    apply recommendations_categories_NoDup.
Qed.

(** ** Gamification points *)

Section Gamification.

Import EnhancedGamification.

Lemma run_snoc (now : Z) (events : list Event) (ev : Event) :
  run now (events ++ [ev]) = step now (run now events) ev.
Proof. unfold run. by rewrite foldl_app. Qed.

Lemma claim_streakCount (reward : Reward.t) (st : State) :
  streakCount (claim reward st) = streakCount st.
Proof. unfold claim. by destruct (_ && _). Qed.

Lemma step_streakCount (now : Z) (c : Instance) (ev : Event) :
  streakCount (state (step now c ev)) = streakCount (state c).
Proof.
  destruct ev as [expenses budget|rewardId]; [done|]. unfold step.
  destruct (List.find _ _); [apply claim_streakCount|done].
Qed.

(** The streak is never set: it stays 0. *)
Lemma run_streakCount (now : Z) (events : list Event) :
  streakCount (state (run now events)) = lit 0.
Proof.
  induction events as [|ev events IH] using rev_ind; [done|].
  by rewrite run_snoc, step_streakCount.
Qed.

Lemma step_click (now : Z) (c : Instance) (rewardId : string) :
  let c' := step now c (Click rewardId) in
  props c' = props c /\
  (state c' = state c \/
   exists reward,
     In reward (rewards (totalPoints (state c))) /\
     Reward.id reward = rewardId /\
     Reward.unlocked reward = true /\
     includes (unlockedRewards (state c)) rewardId = false /\
     totalPoints (state c') = (totalPoints (state c) - Reward.cost reward)%js /\
     unlockedRewards (state c') = unlockedRewards (state c) ++ [rewardId]).
Proof.
  cbv zeta. unfold step.
  destruct (List.find _ _) as [reward|] eqn:F; [|by split; [|left]].
  apply find_some in F as [Hin Hid%String.eqb_eq]. simpl props. simpl state.
  split; [done|].
  unfold claim. destruct (Reward.unlocked reward) eqn:U; [|by left].
  rewrite Hid. destruct (includes _ rewardId) eqn:I; [by left|].
  right. exists reward. simpl. by rewrite Hid.
Qed.

End Gamification.



(** ** The expense form *)

Section Form.

Local Open Scope string_scope.

Lemma nonEmpty_false (s : string) : ExpenseForm.nonEmpty s = false <-> s = "".
Proof.
  unfold ExpenseForm.nonEmpty. destruct (String.eqb_spec s ""); simpl; split; congruence.
Qed.

Lemma isNaN_true (a : number) : isNaN a = true <-> a = NaN.
Proof. destruct a; simpl; split; congruence. Qed.

End Form.



(** ** Dashboard statistics *)


(** ** CSV export *)

Lemma string_append_assoc (s1 s2 s3 : string) :
  ((s1 ++ s2) ++ s3 = s1 ++ (s2 ++ s3))%string.
Proof.
  induction s1 as [|c s1 IH]; [done|].
  change (String c ((s1 ++ s2) ++ s3) = String c (s1 ++ (s2 ++ s3)))%string.
  by f_equal.
Qed.

(** C10.  The exported text is the header line
    [Date,Description,Category,Amount] followed by one line per filtered
    expense: date, description between double quotes, category and amount
    with two decimals, joined by commas; the lines are joined by newlines.
    When the selection yields no expense the text is exactly the header
    line. *)
Theorem csv_header_and_rows (now : Z) (expenses : list Expense)
    (dateRange : ExportManager.DateRange) :
  let filtered := ExportManager.getFilteredExpenses now expenses dateRange in
  let quote := String (ascii_of_N 34) EmptyString in
  ExportManager.csvContent now expenses dateRange
    = Str.join Str.nl
        ("Date,Description,Category,Amount"%string
         :: map (fun e => (date e ++ "," ++ quote ++ description e ++ quote ++ ","
                           ++ category e ++ "," ++ toFixed (amount e) 2)%string)
                filtered) /\
  (filtered = [] ->
     ExportManager.csvContent now expenses dateRange
       = "Date,Description,Category,Amount"%string) /\
  (ExportManager.getFilteredExpenses now [] dateRange = [] /\
   ExportManager.csvContent now [] dateRange
     = "Date,Description,Category,Amount"%string).
Proof.
  intros filtered quote.
  assert (E : ExportManager.csvContent now expenses dateRange
    = Str.join Str.nl
        ("Date,Description,Category,Amount"%string
         :: map (fun e => (date e ++ "," ++ quote ++ description e ++ quote ++ ","
                           ++ category e ++ "," ++ toFixed (amount e) 2)%string)
                filtered)).
  { unfold ExportManager.csvContent. fold filtered. f_equal. f_equal.
    apply map_ext. intros e. unfold ExportManager.csvRow, quote. simpl.
    by rewrite string_append_assoc. }
  split; [exact E|]. split.
  - intros H. rewrite E, H. reflexivity.
  - assert (F : ExportManager.getFilteredExpenses now [] dateRange = [])
      by (by destruct dateRange).
    split; [exact F|]. unfold ExportManager.csvContent. by rewrite F.
Qed.

(* ================================================================== *)
(** * Further properties of the code *)
(* ================================================================== *)

(** ** Totals per key *)

Section Totals.

Local Open Scope Q_scope.

Lemma finite_Fin (a : number) : finite a -> exists q, a = Fin q.
Proof. destruct a; simpl; try tauto. eauto. Qed.

Lemma foldl_add_Qsum (l : list number) (a : Q) :
  Forall finite l ->
  exists q, foldl add (Fin a) l = Fin q /\ q == a + Qsum l.
Proof.
  revert a. induction l as [|x l IH]; intros a Hl; simpl.
  - exists a. split; [done|]. lra.
  - inversion Hl as [|? ? Hx Hl']; subst.
    destruct (finite_Fin _ Hx) as [qx ->]. simpl.
    destruct (IH (a + qx) Hl') as (q & -> & Hq). exists q. split; [done|].
    rewrite Hq. lra.
Qed.

Lemma sum_Qsum (l : list number) :
  Forall finite l -> exists q, sum l = Fin q /\ q == Qsum l.
Proof.
  intros Hl. destruct (foldl_add_Qsum l 0 Hl) as (q & E & Hq).
  exists q. split; [exact E|]. rewrite Hq. lra.
Qed.

Lemma Qsum_Permutation (l l' : list number) : l ≡ₚ l' -> Qsum l == Qsum l'.
Proof.
  induction 1 as [|x l l' _ IH|x y l|l l' l'' _ IH1 _ IH2]; simpl.
  - reflexivity.
  - rewrite IH. reflexivity.
  - lra.
  - by rewrite IH1.
Qed.

Lemma sumAmounts_Qsum (expenses : list Expense) :
  Forall (fun e => finite (amount e)) expenses ->
  exists q, sumAmounts expenses = Fin q /\ q == Qsum (map amount expenses).
Proof.
  intros H. unfold sumAmounts.
  assert (E : forall acc : number,
    foldl (fun sum expense => (sum + amount expense)%js) acc expenses
    = foldl add acc (map amount expenses)).
  { induction expenses as [|e l IH]; intros acc; simpl; [done|].
    inversion H; subst. by rewrite IH. }
  rewrite E. apply sum_Qsum. by apply Forall_map.
Qed.

Lemma sumAmounts_snoc (expenses : list Expense) (e : Expense) :
  sumAmounts (expenses ++ [e]) = (sumAmounts expenses + amount e)%js.
Proof. unfold sumAmounts. by rewrite foldl_app. Qed.

Lemma withKey_snoc (key : Expense -> string) (k : string)
    (expenses : list Expense) (e : Expense) :
  withKey key k (expenses ++ [e]) =
    if String.eqb (key e) k then withKey key k expenses ++ [e]
    else withKey key k expenses.
Proof.
  unfold withKey. rewrite List.filter_app. simpl.
  destruct (String.eqb (key e) k); [done|]. by rewrite app_nil_r.
Qed.

Lemma or_else_finite_equiv (v : number) : finite v -> or_else v (lit 0) ≡ v.
Proof.
  intros [q ->]%finite_Fin. unfold or_else, truthy.
  destruct (Qeqb_spec q 0) as [E|_]; simpl; [|reflexivity].
  unfold equiv, number_equiv, eqn. simpl. by rewrite E.
Qed.

Lemma add_equiv (a a' b : number) : a ≡ a' -> (a + b)%js ≡ (a' + b)%js.
Proof.
  destruct a, a', b; unfold equiv, number_equiv, eqn; simpl; try tauto.
  intros ->. reflexivity.
Qed.

Lemma equiv_trans_num (a b c : number) : a ≡ b -> b ≡ c -> a ≡ c.
Proof.
  destruct a, b, c; unfold equiv, number_equiv, eqn; simpl; try tauto.
  intros -> ->. reflexivity.
Qed.

Lemma equiv_finite (a b : number) : a ≡ b -> finite b -> finite a.
Proof. by destruct a, b. Qed.

Lemma sumAmounts_finite (expenses : list Expense) :
  Forall (fun e => finite (amount e)) expenses -> finite (sumAmounts expenses).
Proof. intros (q & -> & _)%sumAmounts_Qsum. done. Qed.

Lemma withKey_Forall (P : Expense -> Prop) (key : Expense -> string) (k : string)
    (expenses : list Expense) :
  Forall P expenses -> Forall P (withKey key k expenses).
Proof. apply filter_Forall. Qed.

Lemma groupTotals_holds (key : Expense -> string) (expenses : list Expense) (k : string) :
  Forall (fun e => finite (amount e)) expenses ->
  holds key (groupTotals key expenses) expenses k.
Proof.
  unfold groupTotals. intros Hfin.
  assert (G : forall rest done acc,
    Forall (fun e => finite (amount e)) done ->
    Forall (fun e => finite (amount e)) rest ->
    (forall k, holds key acc done k) ->
    forall k, holds key
      (foldl (fun acc e =>
         <[key e := (or_default (acc !! key e) (lit 0) + amount e)%js]> acc)
         acc rest) (done ++ rest) k).
  { clear. induction rest as [|e rest IH]; intros done acc Hd Hr Hacc k'.
    - rewrite app_nil_r. apply Hacc.
    - inversion Hr as [|? ? He Hr']; subst. simpl.
      replace (done ++ e :: rest) with ((done ++ [e]) ++ rest)
        by (by rewrite <- app_assoc).
      apply IH; [apply Forall_app; split; [done|by repeat constructor]|done|].
      clear k'. intros k'. unfold holds. rewrite withKey_snoc.
      destruct (String.eqb_spec (key e) k') as [<-|Hne].
      + rewrite lookup_insert_eq. split; [by destruct (withKey key (key e) done)|].
        rewrite sumAmounts_snoc. apply add_equiv.
        specialize (Hacc (key e)). unfold holds in Hacc.
        destruct (acc !! key e) as [v|]; simpl.
        * destruct Hacc as [_ Hv].
          eapply equiv_trans_num; [|exact Hv]. apply or_else_finite_equiv.
          eapply equiv_finite; [exact Hv|].
          by apply sumAmounts_finite, withKey_Forall.
        * rewrite Hacc. reflexivity.
      + rewrite lookup_insert_ne by done. apply Hacc. }
  apply (G expenses [] ∅); [constructor|done|].
  intros k'. unfold holds. by rewrite lookup_empty.
Qed.

End Totals.

Section TotalsSum.

Local Open Scope Q_scope.

Lemma Qsum_cons_pair (k : string) (v : number) (l : list (string * number)) :
  Qsum (((k, v) :: l).*2) = toQ v + Qsum (l.*2).
Proof. reflexivity. Qed.

Lemma Qsum_values_insert (m : gmap string number) (k : string) (v : number) :
  Qsum (Object_values (<[k:=v]> m))
  == Qsum (Object_values m) - toQ (default (Fin 0) (m !! k)) + toQ v.
Proof.
  unfold Object_values. destruct (m !! k) as [old|] eqn:E; cbn [default].
  - rewrite <- insert_delete_eq.
    rewrite (Qsum_Permutation _ (((k, v) :: map_to_list (delete k m)).*2)).
    2:{ apply fmap_Permutation, map_to_list_insert, lookup_delete_eq. }
    rewrite (Qsum_Permutation ((map_to_list m).*2)
               (((k, old) :: map_to_list (delete k m)).*2)).
    2:{ apply fmap_Permutation. symmetry. by apply map_to_list_delete. }
    rewrite !Qsum_cons_pair. simpl toQ. lra.
  - rewrite (Qsum_Permutation _ (((k, v) :: map_to_list m).*2)).
    2:{ by apply fmap_Permutation, map_to_list_insert. }
    rewrite Qsum_cons_pair. simpl toQ. lra.
Qed.

Lemma finite_add (a b : number) : finite a -> finite b -> finite (a + b)%js.
Proof. by destruct a, b. Qed.

Lemma groupTotals_Qsum (key : Expense -> string) (expenses : list Expense) :
  Forall (fun e => finite (amount e)) expenses ->
  map_Forall (fun _ v => finite v) (groupTotals key expenses) /\
  Qsum (Object_values (groupTotals key expenses)) == Qsum (map amount expenses).
Proof.
  unfold groupTotals. intros Hfin.
  assert (G : forall rest (acc : gmap string number),
    map_Forall (fun _ v => finite v) acc ->
    Forall (fun e => finite (amount e)) rest ->
    let r := foldl (fun acc e =>
               <[key e := (or_default (acc !! key e) (lit 0) + amount e)%js]> acc)
               acc rest in
    map_Forall (fun _ v => finite v) r /\
    Qsum (Object_values r) == Qsum (Object_values acc) + Qsum (map amount rest)).
  { clear. induction rest as [|e rest IH]; intros acc Hacc Hr; simpl.
    - split; [done|]. change (Qsum (map amount [])) with 0. lra.
    - inversion Hr as [|? ? He Hr']; subst.
      destruct (finite_Fin _ He) as [a Ea].
      set (v := (or_default (acc !! key e) (lit 0) + amount e)%js).
      assert (Hv : finite v /\
                   toQ v == toQ (default (Fin 0) (acc !! key e)) + toQ (amount e)).
      { subst v. destruct (acc !! key e) as [old|] eqn:E; cbn [or_default default].
        - destruct (finite_Fin _ (Hacc _ _ E)) as [o ->]. rewrite Ea.
          unfold or_else, truthy.
          destruct (Qeqb_spec o 0) as [Eo|_]; simpl negb; cbv iota;
            unfold lit, of_Z, add, toQ, finite, inject_Z;
            (split; [done|]); unfold Datatypes.id; lra.
        - rewrite Ea. unfold lit, of_Z, add, toQ, finite, inject_Z.
          split; [done|]. lra. }
      destruct Hv as [Hv1 Hv2].
      destruct (IH (<[key e := v]> acc)) as [IH1 IH2];
        [by apply map_Forall_insert_2|done|].
      split; [exact IH1|]. rewrite IH2, Qsum_values_insert, Hv2.
      change (Qsum (map amount (e :: rest)))
        with (toQ (amount e) + Qsum (map amount rest)). lra. }
  destruct (G expenses ∅) as [G1 G2]; [apply map_Forall_empty|done|].
  split; [exact G1|]. rewrite G2. unfold Object_values.
  rewrite map_to_list_empty. change (Qsum ([] .*2)) with 0. lra.
Qed.

Lemma groupTotals_sum (key : Expense -> string) (expenses : list Expense) :
  Forall (fun e => finite (amount e)) expenses ->
  sum (Object_values (groupTotals key expenses)) ≡ sumAmounts expenses.
Proof.
  intros Hfin. destruct (groupTotals_Qsum key expenses Hfin) as [H1 H2].
  destruct (sum_Qsum (Object_values (groupTotals key expenses)))
    as (q & -> & Hq); [by apply Object_values_Forall|].
  destruct (sumAmounts_Qsum expenses Hfin) as (q' & -> & Hq').
  unfold equiv, number_equiv, eqn. by rewrite Hq, Hq', H2.
Qed.

Lemma groupTotals_dom (key : Expense -> string) (expenses : list Expense) :
  dom (groupTotals key expenses) = (list_to_set (map key expenses) : gset string).
Proof.
  unfold groupTotals.
  assert (G : forall rest (acc : gmap string number),
    dom (foldl (fun acc e =>
           <[key e := (or_default (acc !! key e) (lit 0) + amount e)%js]> acc)
           acc rest)
    = (list_to_set (map key rest) : gset string) ∪ dom acc).
  { induction rest as [|e rest IH]; intros acc; simpl.
    - set_solver.
    - rewrite IH, dom_insert_L. set_solver. }
  rewrite G, dom_empty_L. set_solver.
Qed.

Lemma Object_keys_length (o : gmap string number) :
  length (Object_keys o) = size (dom o).
Proof.
  unfold Object_keys. by rewrite length_fmap, length_map_to_list, size_dom.
Qed.

End TotalsSum.






(** ** The rewards store *)

Section RewardsStore.

Import EnhancedGamification.

Local Ltac case_ifs :=
  repeat match goal with
         | |- context [if ?b then _ else _] => destruct b
         end.

(** The points earned are one of the sums of the points of the five
    achievements that can unlock: never more than 800. *)
Lemma earnedPoints_range (now : Z) (expenses : list Expense) (budget : Budget) :
  between 0 800 (earnedPoints now expenses budget (lit 0)).
Proof.
  unfold earnedPoints, achievements.
  cbn [List.filter Achievement.unlocked].
  change (lit 0 >=? lit 7)%js with false.
  case_ifs; cbn [foldl Achievement.points]; vm_compute; split; discriminate.
Qed.

Lemma level_range (now : Z) (expenses : list Expense) (budget : Budget) (st : State) :
  streakCount st = lit 0 ->
  between 1 5 (level (pointsEffect now expenses budget st)).
Proof.
  intros Hs. unfold pointsEffect. rewrite Hs. cbn [level].
  unfold earnedPoints, achievements.
  cbn [List.filter Achievement.unlocked].
  change (lit 0 >=? lit 7)%js with false.
  case_ifs; cbn [foldl Achievement.points]; vm_compute; split; discriminate.
Qed.

Lemma locked_achievements (now : Z) (expenses : list Expense) (budget : Budget)
    (a : Achievement.t) :
  In a (achievements now expenses budget (lit 0)) ->
  Achievement.id a = "voice-user"%string \/
  Achievement.id a = "consistent-tracker"%string ->
  Achievement.unlocked a = false.
Proof.
  unfold achievements. cbn [In].
  intros [<-|[<-|[<-|[<-|[<-|[<-|[<-|[]]]]]]]]; cbn [Achievement.id Achievement.unlocked];
    intros [H|H]; try discriminate H; reflexivity.
Qed.

Lemma includes_In (arr : list string) (x : string) :
  includes arr x = true <-> In x arr.
Proof.
  unfold includes. rewrite existsb_exists. split.
  - intros (y & Hy & ->%String.eqb_eq). done.
  - intros H. exists x. by rewrite String.eqb_refl.
Qed.

Lemma pointsEffect_invariant (now : Z) (expenses : list Expense) (budget : Budget)
    (st : State) :
  storeInvariant st -> storeInvariant (pointsEffect now expenses budget st).
Proof.
  intros (Hs & _ & Hn & Hp). unfold storeInvariant, pointsEffect.
  cbn [streakCount totalPoints unlockedRewards]. rewrite Hs.
  split; [done|]. split; [apply earnedPoints_range|]. done.
Qed.

Lemma claim_invariant (reward : Reward.t) (st : State) :
  In reward (rewards (totalPoints st)) ->
  storeInvariant st -> storeInvariant (claim reward st).
Proof.
  intros Hin (Hs & Ht & Hn & Hp). unfold claim.
  destruct (Reward.unlocked reward) eqn:U; [|done].
  destruct (includes (unlockedRewards st) (Reward.id reward)) eqn:I; [done|].
  cbn [andb negb]. unfold storeInvariant.
  cbn [streakCount totalPoints unlockedRewards].
  assert (Hni : ~ In (Reward.id reward) (unlockedRewards st)).
  { intros H%includes_In. congruence. }
  destruct (totalPoints st) as [| | |t]; try done. simpl in Ht.
  unfold rewards in Hin. cbn [In] in Hin.
  assert (Hcost : exists c : Z,
            Reward.cost reward = lit c /\ (inject_Z c <= t)%Q /\ (0 <= c)%Z /\
            Reward.id reward <> "premium-insights"%string).
  { destruct Hin as [<-|[<-|[<-|[<-|[]]]]];
      cbn [Reward.unlocked Reward.cost Reward.id] in *;
      unfold ge, le, lit, of_Z in U;
      match type of U with
      | Qleb ?c t = true => destruct (Qleb_spec c t) as [L|]; [|discriminate U]
      end.
    - exists 500%Z. repeat split; [done|lia|discriminate].
    - exists 200%Z. repeat split; [done|lia|discriminate].
    - exfalso. unfold inject_Z in L. lra.
    - exists 300%Z. repeat split; [done|lia|discriminate]. }
  destruct Hcost as (c & -> & Hc & Hc0 & Hne).
  split; [done|]. split.
  - unfold lit, of_Z, sub, add, neg, between.
    assert ((0 <= inject_Z c)%Q) by (change 0%Q with (inject_Z 0); by rewrite <- Zle_Qle).
    lra.
  - split.
    + apply NoDup_app. split; [done|]. split; [|apply NoDup_singleton].
      intros x Hx ->%list_elem_of_singleton. by apply Hni, list_elem_of_In.
    + intros [H|[H|[]]]%in_app_iff; [done|]. by apply Hne.
Qed.

Lemma run_invariant (now : Z) (events : list Event) :
  storeInvariant (state (run now events)).
Proof.
  induction events as [|ev events IH] using rev_ind.
  - apply pointsEffect_invariant. unfold storeInvariant, initialState.
    cbn [streakCount totalPoints unlockedRewards].
    split; [done|]. split; [by vm_compute|]. split; [constructor|]. by intros [].
  - rewrite run_snoc. destruct ev as [expenses budget|rewardId].
    + by apply pointsEffect_invariant.
    + unfold step. destruct (List.find _ _) as [reward|] eqn:F; [|done].
      apply find_some in F as [Hin _]. by apply claim_invariant.
Qed.

End RewardsStore.

(** X4.  Whatever the expenses and the budget, at most 800 points can be
    earned (the sum of the five achievements that can unlock), the level
    computed by the effect lies between 1 and 5, and the achievements
    "Voice Commander" and "Consistency King" are never unlocked. *)
Theorem earned_points_and_level_bounds (now : Z)
    (events : list EnhancedGamification.Event)
    (expenses : list Expense) (budget : Budget) :
  let c := EnhancedGamification.run now
             (events ++ [EnhancedGamification.SetProps expenses budget]) in
  between 0 800 (EnhancedGamification.earnedPoints now expenses budget (lit 0)) /\
  between 1 5 (EnhancedGamification.level (EnhancedGamification.state c)) /\
  (forall a : Achievement.t,
     In a (EnhancedGamification.achievements now expenses budget (lit 0)) ->
     Achievement.id a = "voice-user"%string \/
     Achievement.id a = "consistent-tracker"%string ->
     Achievement.unlocked a = false).
Proof.
  intros c. split; [apply earnedPoints_range|]. split.
  - subst c. rewrite run_snoc. apply level_range, run_streakCount.
  - apply locked_achievements.
Qed.

(** X5.  At any time in the life of the component, the total shown lies
    between 0 and 800, no reward is recorded as claimed twice, and the
    "Premium Insights" reward, which costs 1000, has not been claimed. *)
Theorem rewards_store_invariants (now : Z) (events : list EnhancedGamification.Event) :
  let st := EnhancedGamification.state (EnhancedGamification.run now events) in
  between 0 800 (EnhancedGamification.totalPoints st) /\
  NoDup (EnhancedGamification.unlockedRewards st) /\
  ~ In "premium-insights"%string (EnhancedGamification.unlockedRewards st).
Proof. intros st. by destruct (run_invariant now events) as (_ & ? & ? & ?). Qed.

(** ** More on the recommendations *)

Section RecommendationFacts.

Local Open Scope Q_scope.

Lemma positive_scaled (a : number) (k : Q) :
  0 < k -> (a >? lit 0)%js = true -> (a * Fin k >? lit 0)%js = true.
Proof.
  intros Hk. unfold gt, lt, lit, of_Z. destruct a as [| | |q]; try done.
  - intros _. unfold mul, inf_of_sign.
    destruct (k ?= 0) eqn:E; [apply Qeq_alt in E|apply Qlt_alt in E|done]; lra.
  - intros H. unfold mul.
    destruct (Qltb_spec (inject_Z 0) q) as [Hq|]; [|done].
    destruct (Qltb_spec (inject_Z 0) (q * k)) as [|N]; [done|].
    exfalso. apply N. unfold inject_Z in *. nra.
Qed.

Lemma or_default_not_NaN (o : option number) : or_default o (lit 0) <> NaN.
Proof.
  destruct o as [a|]; [|done]. unfold or_default, or_else.
  destruct a; simpl; try done. by destruct (negb _).
Qed.

Lemma recommend_positive (budget : Budget) (p : Prediction.t) :
  (Prediction.predictedAmount p >? lit 0)%js = true ->
  (BudgetRecommendation.recommendedBudget (ExpensePrediction.recommend budget p)
   >? lit 0)%js = true.
Proof.
  intros Hp.
  destruct (recommend_rule budget p) as (_ & _ & R1 & R2 & R3 & R4).
  pose proof (or_default_not_NaN (budget !! Prediction.category p)) as Hnan.
  destruct (or_default (budget !! Prediction.category p) (lit 0) === lit 0)%js eqn:E0.
  { destruct (R1 eq_refl) as [-> _]. by apply positive_scaled. }
  destruct (Prediction.predictedAmount p
            >? or_default (budget !! Prediction.category p) (lit 0) * dec 11 10)%js eqn:E1.
  { destruct (R2 eq_refl eq_refl) as [-> _]. by apply positive_scaled. }
  destruct (Prediction.predictedAmount p
            <? or_default (budget !! Prediction.category p) (lit 0) * dec 8 10)%js eqn:E2.
  { destruct (R3 eq_refl eq_refl eq_refl) as [-> _]. by apply positive_scaled. }
  destruct (R4 eq_refl eq_refl eq_refl) as [-> _].
  clear R1 R2 R3 R4 E2.
  destruct (or_default (budget !! Prediction.category p) (lit 0)) as [| | |c];
    [done|done| |].
  - exfalso. destruct (Prediction.predictedAmount p); discriminate.
  - unfold gt, lt, lit, of_Z, strict_eq, dec, mul in *.
    destruct (Qeqb_spec c (inject_Z 0)) as [|Hc0]; [done|].
    destruct (Qltb_spec (inject_Z 0) c) as [|Hc]; [done|]. exfalso.
    unfold inject_Z in *.
    destruct (Prediction.predictedAmount p) as [| | |q]; try done.
    destruct (Qltb_spec 0 q) as [Hq|]; [|done].
    destruct (Qltb_spec (c * (11 # 10)) q) as [|N]; [done|]. apply N.
    assert (c < 0) by (destruct (Qlt_le_dec c 0); [done|]; exfalso; apply Hc0; lra).
    lra.
Qed.

End RecommendationFacts.

(** X6.  Every recommendation listed proposes a strictly positive budget,
    whatever the current limits are (zero, negative or infinite). *)
Theorem recommended_budgets_positive
    (now : Z) (expenses : list Expense) (budget : Budget) :
  Forall (fun r => (BudgetRecommendation.recommendedBudget r >? lit 0)%js = true)
         (ExpensePrediction.budgetRecommendations now expenses budget).
Proof.
  unfold ExpensePrediction.budgetRecommendations.
  rewrite Array_sort_Permutation. apply Forall_fmap, List.Forall_forall.
  intros p [_ Hp]%filter_In. by apply recommend_positive.
Qed.

(** X7.  The list holds one recommendation per prediction, no category
    occurs in it twice, and every predicted amount shown is strictly
    positive. *)
Theorem one_recommendation_per_category
    (now : Z) (expenses : list Expense) (budget : Budget) :
  length (ExpensePrediction.budgetRecommendations now expenses budget)
    = length (ExpensePrediction.predictions now expenses) /\
  NoDup (map BudgetRecommendation.category
             (ExpensePrediction.budgetRecommendations now expenses budget)) /\
  NoDup (map Prediction.category (ExpensePrediction.predictions now expenses)) /\
  Forall (fun p => (Prediction.predictedAmount p >? lit 0)%js = true)
         (ExpensePrediction.predictions now expenses).
Proof.
  split; [|split; [apply recommendations_categories_NoDup|
                   split; [apply predictions_categories_NoDup|]]].
  - unfold ExpensePrediction.budgetRecommendations.
    by rewrite Array_sort_Permutation, length_map.
  - apply List.Forall_forall. by intros p [_ Hp]%filter_In.
Qed.

(** ** The expense list *)

Section SortingOn.

Context {A : Type} (compareFn : A -> A -> number) (P : A -> Prop).

Hypothesis total_on : forall a b, P a -> P b ->
  mayPrecede compareFn a b \/ mayPrecede compareFn b a.
Hypothesis trans_on : forall a b c, P a -> P b -> P c ->
  mayPrecede compareFn a b -> mayPrecede compareFn b c -> mayPrecede compareFn a c.

Lemma sort_insert_sorted_on (x : A) (l : list A) :
  P x -> Forall P l ->
  StronglySorted (mayPrecede compareFn) l ->
  StronglySorted (mayPrecede compareFn) (sort_insert compareFn x l).
Proof.
  intros Hx Hl Hs. induction Hs as [|y l Hs IH Hy]; simpl.
  - repeat constructor.
  - inversion Hl as [|? ? Py Pl]; subst.
    destruct (compareFn x y <=? lit 0)%js eqn:E.
    + constructor; [by constructor|]. constructor; [done|].
      rewrite List.Forall_forall in Hy, Pl. apply List.Forall_forall.
      intros z Hz. apply (trans_on x y z); auto.
    + constructor; [by apply IH|].
      rewrite sort_insert_Permutation. constructor; [|done].
      destruct (total_on x y Hx Py) as [H'|H']; [|done].
      unfold mayPrecede in H'. congruence.
Qed.

Lemma Array_sort_sorted_on (l : list A) :
  Forall P l -> StronglySorted (mayPrecede compareFn) (Array_sort compareFn l).
Proof.
  induction 1 as [|x l Hx Hl IH]; [constructor|].
  change (Array_sort compareFn (x :: l))
    with (sort_insert compareFn x (Array_sort compareFn l)).
  apply sort_insert_sorted_on; [done| |done].
  by rewrite Array_sort_Permutation.
Qed.

End SortingOn.

Section ExpenseListFacts.

Local Open Scope Q_scope.

Lemma Array_sort_constant {A : Type} (l : list A) :
  Array_sort (fun _ _ => lit 0) l = l.
Proof. induction l as [|x l IH]; simpl; [done|]. rewrite IH. by destruct l. Qed.

Lemma sumAmounts_Permutation (l l' : list Expense) :
  Forall (fun e => finite (amount e)) l -> l ≡ₚ l' ->
  sumAmounts l ≡ sumAmounts l'.
Proof.
  intros Hl Hp.
  assert (Hl' : Forall (fun e => finite (amount e)) l') by (by rewrite <- Hp).
  destruct (sumAmounts_Qsum l Hl) as (q & -> & Hq).
  destruct (sumAmounts_Qsum l' Hl') as (q' & -> & Hq').
  unfold equiv, number_equiv, eqn. rewrite Hq, Hq'.
  apply Qsum_Permutation. by apply Permutation_map.
Qed.

Lemma amount_order (a b : Expense) :
  finite (amount a) -> finite (amount b) ->
  (mayPrecede (fun a b => amount b - amount a)%js a b <-> amountAtLeast a b).
Proof.
  intros [x Ex]%finite_Fin [y Ey]%finite_Fin.
  unfold mayPrecede, amountAtLeast. rewrite Ex, Ey.
  unfold sub, add, neg, le, lit, of_Z.
  destruct (Qleb_spec (y + - x) (inject_Z 0)) as [H|H];
    destruct (Qleb_spec y x) as [H'|H']; unfold inject_Z in *; split; try done; lra.
Qed.

End ExpenseListFacts.



(** ** Deleting expenses *)

(** X9.  Deleting by id keeps exactly the expenses with another id, in
    their order; it undoes the addition of an expense whose id was not yet in
    use; and since the id of a submitted expense is the time of the
    submission, two submissions made at the same instant share their id and
    are deleted together.  The delete button of the list deletes by the id of
    its expense. *)
Theorem delete_by_id (target : string) (expenses : list Expense) :
  (forall e, In e (Index.deleteExpense target expenses)
             <-> In e expenses /\ Expense_id e <> target) /\
  sublist (Index.deleteExpense target expenses) expenses /\
  (forall e, Expense_id e = target ->
             Forall (fun x => Expense_id x <> target) expenses ->
             Index.deleteExpense target (Index.addExpense e expenses) = expenses) /\
  (forall (now : Z) (categories : list CustomCategory.t) (f1 f2 : ExpenseForm.Form),
     Index.deleteExpense (pretty now)
       (Index.submit now categories f2 (Index.submit now categories f1 expenses))
     = Index.deleteExpense (pretty now) expenses) /\
  (forall e, ExpenseList.handleDelete e expenses
             = Index.deleteExpense (Expense_id e) expenses).
Proof.
  split; [|split; [|split; [|split]]].
  - intros e. unfold Index.deleteExpense. rewrite filter_In. split.
    + intros [H1 H2]. split; [done|]. intros E.
      by rewrite E, String.eqb_refl in H2.
    + intros [H1 H2]. split; [done|].
      by destruct (String.eqb_spec (Expense_id e) target).
  - unfold Index.deleteExpense.
    induction expenses as [|x l IH]; simpl; [done|].
    destruct (negb _); [by apply sublist_skip|by apply sublist_cons].
  - intros e He Hall. unfold Index.deleteExpense, Index.addExpense. simpl.
    rewrite He, String.eqb_refl. simpl.
    induction Hall as [|x l Hx Hl IH]; simpl; [done|].
    destruct (String.eqb_spec (Expense_id x) target); [done|]. simpl. by rewrite IH.
  - intros now categories f1 f2.
    assert (S : forall f l,
      Index.deleteExpense (pretty now) (Index.submit now categories f l)
      = Index.deleteExpense (pretty now) l).
    { intros f l. unfold Index.submit, ExpenseForm.handleSubmit.
      destruct (_ || _); cbn [ExpenseForm.added]; [done|].
      unfold Index.addExpense, Index.deleteExpense. cbn [List.filter].
      unfold Expense_id at 1. cbn [id].
      by rewrite String.eqb_refl. }
    by rewrite !S.
  - done.
Qed.

(** ** Categorisation by keyword *)


(** ** The numbers of the dashboard *)

Section DashboardFacts.

Local Open Scope Q_scope.

Lemma finite_div_pos (a b : number) :
  finite a -> finite b -> (b >? lit 0)%js = true -> finite (a / b)%js.
Proof.
  intros [x ->]%finite_Fin [y ->]%finite_Fin. unfold gt, lt, lit, of_Z, div.
  destruct (Qltb_spec (inject_Z 0) y) as [H|]; [|done]. intros _.
  destruct (Qeqb_spec y 0) as [E|]; [|done]. unfold inject_Z in H. lra.
Qed.

Lemma finite_sub (a b : number) : finite a -> finite b -> finite (a - b)%js.
Proof. by destruct a, b. Qed.

Lemma finite_mul (a b : number) : finite a -> finite b -> finite (a * b)%js.
Proof. by destruct a, b. Qed.

Lemma dashboard_totalBudget_finite (budget : Budget) :
  map_Forall (fun _ limit => limit <> PInf /\ limit <> NInf) budget ->
  finite (DashboardStats.totalBudget budget).
Proof.
  intros H. unfold DashboardStats.totalBudget.
  apply Object_values_Forall in H. revert H.
  generalize (Object_values budget) as l.
  assert (G : forall (l : list number) (acc : number),
    finite acc -> Forall (fun limit => limit <> PInf /\ limit <> NInf) l ->
    finite (foldl (fun sum amount => sum + or_else amount (lit 0))%js acc l)).
  { induction l as [|x l IH]; intros acc Ha Hl; simpl; [done|].
    inversion Hl as [|? ? [H1 H2] Hl']; subst. apply IH; [|done].
    apply finite_add; [done|]. unfold or_else.
    destruct x; simpl; try done. by destruct (negb _). }
  intros l. by apply G.
Qed.

End DashboardFacts.





(** ** The summary of the PDF report *)

(** X13.  The average of the report is never [NaN]: it is 0 for an empty
    selection (printed "$0.00" next to "Number of Transactions: 0"), and for
    a selection of n > 0 expenses with finite amounts it is their total
    divided by n. *)
Theorem pdf_average_guarded (now : Z) (expenses : list Expense)
    (dateRange : ExportManager.DateRange) :
  ExportPDF.avgExpense now expenses dateRange <> NaN /\
  (ExportPDF.filteredExpenses now expenses dateRange = [] ->
     ExportPDF.avgExpense now expenses dateRange = lit 0 /\
     ExportPDF.summary now expenses dateRange
       = ["Total Expenses: $0.00"; "Number of Transactions: 0";
          "Average Expense: $0.00"]%string) /\
  (forall t : Q,
     ExportPDF.filteredExpenses now expenses dateRange <> [] ->
     ExportPDF.totalAmount now expenses dateRange = Fin t ->
     ExportPDF.avgExpense now expenses dateRange
       ≡ Fin (t / inject_Z (Z.of_nat
                (length (ExportPDF.filteredExpenses now expenses dateRange))))).
Proof.
  split; [|split].
  - unfold ExportPDF.avgExpense, or_else.
    destruct (_ / _)%js as [| | |q]; simpl; try done. by destruct (negb _).
  - intros E. unfold ExportPDF.summary, ExportPDF.avgExpense, ExportPDF.totalAmount.
    rewrite E. split; reflexivity.
  - intros t Hne Et. unfold ExportPDF.avgExpense. rewrite Et.
    destruct (ExportPDF.filteredExpenses now expenses dateRange) as [|e l]; [done|].
    unfold of_nat, of_Z, div.
    destruct (Qeqb_spec (inject_Z (Z.of_nat (length (e :: l)))) 0) as [E|_].
    { pose proof (of_nat_S_pos (length l)) as P. simpl length in E.
      rewrite E in P. by apply Qlt_irrefl in P. }
    unfold or_else, truthy.
    destruct (Qeqb_spec (t / inject_Z (Z.of_nat (length (e :: l)))) 0) as [E|_];
      simpl negb; cbv iota; unfold equiv, number_equiv, eqn, lit, of_Z.
    + by rewrite E.
    + reflexivity.
Qed.

(** ** The budget manager *)

Lemma currentMonthSpending_lookup (now : Z) (expenses : list Expense)
    (value : string) :
  In value BudgetManager.categories ->
  BudgetManager.currentMonthSpending now expenses !! value
    = Some (spentThisMonth now expenses value).
Proof.
  unfold BudgetManager.currentMonthSpending, BudgetManager.categories,
    spentThisMonth.
  cbn [foldl In].
  intros [<-|[<-|[<-|[<-|[<-|[<-|[]]]]]]]; by simplify_map_eq.
Qed.

Lemma or_else_zero_equiv (a : number) : a <> NaN -> or_else a (lit 0) ≡ a.
Proof.
  intros H. unfold or_else, truthy. destruct a as [| | |q]; try done.
  destruct (Qeqb_spec q 0) as [E|_]; simpl negb; cbv iota;
    unfold equiv, number_equiv, eqn, lit, of_Z; [|reflexivity].
  rewrite E. reflexivity.
Qed.



(** X15.  Typing into the limit of a category changes that category only and
    never stores [NaN]: text that is not a number, and the empty text, store
    0, and once saved the category then reads "No budget set", whatever was
    spent in it. *)
Theorem budget_input_never_NaN (budgetInputs : Budget) (value text : string) :
  let saved :=
    BudgetManager.saveBudgets
      (BudgetManager.handleBudgetChange budgetInputs value text) in
  (exists limit, saved !! value = Some limit /\ limit <> NaN /\
     (Number text <> NaN -> limit ≡ Number text) /\
     (Number text = NaN \/ text = ""%string -> limit = lit 0)) /\
  (forall other, other <> value -> saved !! other = budgetInputs !! other) /\
  (forall now expenses,
     Number text = NaN \/ text = ""%string ->
     BudgetStatus.status (BudgetManager.getBudgetStatus now expenses saved value)
       = "no-budget"%string).
Proof.
  intros saved.
  assert (Hl : saved !! value = Some (or_else (Number text) (lit 0))).
  { unfold saved, BudgetManager.saveBudgets, BudgetManager.handleBudgetChange.
    by simplify_map_eq. }
  assert (Hz : Number text = NaN \/ text = ""%string ->
               or_else (Number text) (lit 0) = lit 0).
  { intros [->| ->]; reflexivity. }
  split; [|split].
  - eexists. split; [exact Hl|]. split; [|split].
    + unfold or_else. destruct (Number text) as [| | |q]; simpl; try done.
      by destruct (negb _).
    + apply or_else_zero_equiv.
    + exact Hz.
  - intros other Hne.
    unfold saved, BudgetManager.saveBudgets, BudgetManager.handleBudgetChange.
    by simplify_map_eq.
  - intros now expenses H. unfold BudgetManager.getBudgetStatus.
    rewrite Hl, (Hz H). reflexivity.
Qed.

(** ** The points of the journey panel *)

Section PanelFacts.

Local Open Scope Q_scope.

Lemma savedAndPoints_invariant (spentIn : string -> number) (budget : Budget)
    (keys : list string) (s p : Q) (z : Z) :
  (forall k, finite (spentIn k)) ->
  map_Forall (fun _ limit => limit <> PInf) budget ->
  0 <= s -> p == inject_Z z -> (0 <= z)%Z -> p <= 10 * s ->
  exists (s' p' : Q) (z' : Z),
    foldl (fun '(totalSaved, totalPoints) category =>
             let budgetAmount := or_default (budget !! category) (lit 0) in
             let spent := spentIn category in
             if (budgetAmount >? lit 0)%js && (spent <? budgetAmount)%js then
               let saved := (budgetAmount - spent)%js in
               ((totalSaved + saved)%js,
                (totalPoints + Math_floor (saved * lit 10))%js)
             else (totalSaved, totalPoints))
          (Fin s, Fin p) keys = (Fin s', Fin p') /\
    0 <= s' /\ p' == inject_Z z' /\ (0 <= z')%Z /\ p' <= 10 * s'.
Proof.
  intros Hspent Hb. revert s p z.
  induction keys as [|k keys IH]; intros s p z Hs Hp Hz Hps.
  - exists s, p, z. by repeat split.
  - cbn [foldl]. cbv zeta.
    destruct (finite_Fin _ (Hspent k)) as [t Et]. rewrite Et.
    assert (Hlim : or_default (budget !! k) (lit 0) <> PInf).
    { unfold or_default, or_else. destruct (budget !! k) as [v|] eqn:E; [|done].
      destruct (truthy v); [|done]. exact (Hb k v E). }
    destruct (or_default (budget !! k) (lit 0)) as [| | |b]; try done;
      try (by apply (IH s p z)).
    unfold gt, lt, lit, of_Z.
    destruct (Qltb_spec (inject_Z 0) b) as [H0|H0]; [|by apply (IH s p z)].
    destruct (Qltb_spec t b) as [H1|H1]; [|by apply (IH s p z)].
    cbn [andb]. unfold sub, neg, add, mul, Math_floor.
    set (x := (b + - t) * inject_Z 10).
    assert (Hx : 0 <= x) by (unfold x, inject_Z in *; lra).
    assert (Hf : (0 <= Qfloor x)%Z).
    { change 0%Z with (Qfloor 0). by apply Qfloor_resp_le. }
    assert (Hfx : inject_Z (Qfloor x) <= x) by apply Qfloor_le.
    apply (IH (s + (b + - t)) (p + inject_Z (Qfloor x)) (z + Qfloor x)%Z).
    + unfold inject_Z in *. lra.
    + rewrite inject_Z_plus, Hp. reflexivity.
    + lia.
    + unfold x, inject_Z in *. lra.
Qed.

End PanelFacts.



(** ** Voice input *)

Section VoiceFacts.

Ltac each_char c :=
  destruct c as [[] [] [] [] [] [] [] []]; vm_compute; try congruence.

Lemma digit_not_space (c : ascii) :
  Str.is_digit c = true -> Str.is_space c = false.
Proof. each_char c. Qed.

Lemma digit_lower_char (c : ascii) :
  Str.is_digit (Str.lower_char c) = Str.is_digit c.
Proof. each_char c. Qed.

Lemma digit_not_sign (c : ascii) :
  Str.is_digit c = true ->
  (Str.code c =? 45)%N = false /\ (Str.code c =? 43)%N = false /\
  (Str.code c =? 46)%N = false /\ c <> "I"%char.
Proof. each_char c; intros _; repeat split; congruence. Qed.

Lemma digit_in_digit (c : ascii) :
  Str.is_digit c = true ->
  NumberParse.digit_in 10 c = Some (Str.digit_val c) /\ 0 <= Str.digit_val c.
Proof. each_char c; intros _; split; congruence. Qed.

Lemma digit_no_radix (p : ascii) :
  Str.is_digit p = true \/ p = "."%char ->
  (if (Str.code p =? 120)%N || (Str.code p =? 88)%N then 16
   else if (Str.code p =? 111)%N || (Str.code p =? 79)%N then 8
   else if (Str.code p =? 98)%N || (Str.code p =? 66)%N then 2
   else 0) = 0.
Proof. intros [H| ->]; [|reflexivity]. revert H. each_char p. Qed.

Lemma code_dot (c : ascii) : (Str.code c =? 46)%N = true -> c = "."%char.
Proof. each_char c. Qed.

Lemma span_spec (p : ascii -> bool) (l a b : list ascii) :
  VoiceInput.span p l = (a, b) ->
  Forall (fun c => p c = true) a /\ l = (a ++ b)%list.
Proof.
  revert a b. induction l as [|c l IH]; intros a b; simpl.
  - intros [= <- <-]. by split.
  - destruct (p c) eqn:E.
    + destruct (VoiceInput.span p l) as [a' b'] eqn:E'. intros [= <- <-].
      destruct (IH a' b' eq_refl) as [H1 H2]. split; [by constructor|].
      by rewrite H2.
    + intros [= <- <-]. by split.
Qed.

Lemma matchAmount_none (l : list ascii) :
  existsb Str.is_digit l = false -> VoiceInput.matchAmount l = None.
Proof.
  induction l as [|c l IH]; simpl; [done|].
  destruct (Str.is_digit c); simpl; [done|exact IH].
Qed.

Lemma matchAmount_some (l : list ascii) :
  existsb Str.is_digit l = true ->
  exists c r, Str.is_digit c = true /\
    VoiceInput.matchAmount l = Some (VoiceInput.matchHere (c :: r)).
Proof.
  induction l as [|c l IH]; simpl; [done|].
  destruct (Str.is_digit c) eqn:E; simpl; [|exact IH].
  intros _. by exists c, l.
Qed.

Lemma matchHere_shape (c : ascii) (r : list ascii) :
  Str.is_digit c = true -> amountShape (VoiceInput.matchHere (c :: r)).1.
Proof.
  intros Hc. unfold VoiceInput.matchHere.
  destruct (VoiceInput.span Str.is_digit (c :: r)) as [ds r1] eqn:E.
  assert (Hds : exists ds', ds = c :: ds').
  { simpl in E. rewrite Hc in E.
    destruct (VoiceInput.span Str.is_digit r) as [a b]. injection E as <- _.
    by eexists. }
  destruct Hds as [ds' ->]. apply span_spec in E as [Hd _].
  assert (G : forall frac r2,
    (frac = [] \/
     exists d1 d2, frac = ["."%char; d1; d2] /\
                   Str.is_digit d1 = true /\ Str.is_digit d2 = true) ->
    amountShape
      (let '(ws, r3) := VoiceInput.span Str.is_space r2 in
       let group1 := ((c :: ds') ++ frac)%list in
       (group1, (group1 ++ ws ++ VoiceInput.unitAt r3)%list)).1).
  { intros frac r2 Hf. destruct (VoiceInput.span Str.is_space r2) as [ws r3].
    simpl. by exists c, ds', frac. }
  destruct r1 as [|dot [|d1 [|d2 r']]]; try (apply G; by left).
  destruct ((Str.code dot =? 46)%N) eqn:E1; [|apply G; by left].
  destruct (Str.is_digit d1) eqn:E2; [|apply G; by left].
  destruct (Str.is_digit d2) eqn:E3; [|apply G; by left].
  simpl andb. cbv iota. apply G. right. exists d1, d2.
  by rewrite (code_dot dot E1).
Qed.

Lemma span_digits_digits (ds r : list ascii) (acc : Z) (n : nat) :
  Forall (fun d => Str.is_digit d = true) ds -> 0 <= acc ->
  exists acc', 0 <= acc' /\
    NumberParse.span_digits 10 (ds ++ r) acc n
      = NumberParse.span_digits 10 r acc' (n + length ds).
Proof.
  intros H. revert acc n.
  induction H as [|d ds Hd Hds IH]; intros acc n Hacc.
  - exists acc. split; [done|]. simpl. by rewrite Nat.add_0_r.
  - destruct (digit_in_digit d Hd) as [E Hv].
    destruct (IH (acc * 10 + Str.digit_val d) (S n)) as (acc' & H1 & H2); [lia|].
    exists acc'. split; [done|]. simpl. rewrite E, H2. f_equal. lia.
Qed.

Lemma spaceless_trim (g : list ascii) :
  Forall (fun c => Str.is_space c = false) g -> Str.trim_chars g = g.
Proof.
  intros H. unfold Str.trim_chars.
  assert (D : forall l, Forall (fun c => Str.is_space c = false) l ->
                        Str.drop_spaces l = l).
  { intros l Hl. destruct Hl as [|c l Hc _]; simpl; [done|]. by rewrite Hc. }
  rewrite (D g H), D, rev_involutive; [done|].
  apply List.Forall_forall. intros c Hc%in_rev.
  rewrite List.Forall_forall in H. by apply H.
Qed.

Lemma Number_amountShape (g : list ascii) :
  amountShape g ->
  exists q, Number (string_of_list_ascii g) = Fin q /\ (0 <= q)%Q.
Proof.
  intros (c & ds & frac & -> & Hd & Hf).
  inversion Hd as [|? ? Hc Hds]; subst.
  destruct (digit_not_sign c Hc) as (S1 & S2 & S3 & S4).
  unfold Number. rewrite list_ascii_of_string_of_list_ascii.
  rewrite spaceless_trim.
  2:{ constructor; [by apply digit_not_space|]. apply Forall_app. split.
      - eapply Forall_impl; [exact Hds|]. apply digit_not_space.
      - destruct Hf as [->|(d1 & d2 & -> & H1 & H2)]; [constructor|].
        repeat constructor; by apply digit_not_space. }
  assert (R : NumberParse.parse_radix (c :: ds ++ frac) = None).
  { destruct (ds ++ frac)%list as [|p t] eqn:E; [done|].
    unfold NumberParse.parse_radix. rewrite digit_no_radix.
    - change (negb (0 =? 0)) with false. by rewrite andb_false_r.
    - destruct ds as [|d ds']; simpl in E.
      + destruct Hf as [->|(d1 & d2 & -> & _)]; [done|].
        injection E as <- _. by right.
      + injection E as <- _. left. by inversion Hds. }
  rewrite R, S1, S2. unfold NumberParse.parse_magnitude.
  destruct (decide _) as [C|_].
  { exfalso. unfold NumberParse.Infinity_chars in C. simpl in C. congruence. }
  assert (P : exists q, NumberParse.parse_unsigned (c :: ds ++ frac) = Some q
                        /\ (0 <= q)%Q).
  { unfold NumberParse.parse_unsigned.
    destruct (span_digits_digits (c :: ds) frac 0 0 Hd) as (ip & Hip & E); [lia|].
    change (c :: ds ++ frac)%list with ((c :: ds) ++ frac)%list. rewrite E.
    change (0 + length (c :: ds))%nat with (S (length ds)).
    assert (Hq : (0 <= inject_Z ip)%Q)
      by (change 0%Q with (inject_Z 0); by rewrite <- Zle_Qle).
    destruct Hf as [->|(d1 & d2 & -> & H1 & H2)].
    - simpl. by exists (inject_Z ip).
    - destruct (digit_in_digit d1 H1) as [E1 V1].
      destruct (digit_in_digit d2 H2) as [E2 V2].
      simpl. rewrite E1. simpl. rewrite E2. simpl.
      eexists. split; [reflexivity|].
      set (fp := (0 * 10 + Str.digit_val d1) * 10 + Str.digit_val d2).
      assert (Hfp : (0 <= inject_Z fp)%Q).
      { change 0%Q with (inject_Z 0). rewrite <- Zle_Qle. unfold fp. lia. }
      assert (0 <= inject_Z fp / inject_Z (10 ^ Z.of_nat 2))%Q.
      { apply Qle_shift_div_l; [by vm_compute|]. lra. }
      lra. }
  destruct P as (q & -> & Hq). by exists q.
Qed.

Lemma nonspace_trim (l : list ascii) :
  Exists (fun c => Str.is_space c = false) l -> Str.trim_chars l <> [].
Proof.
  assert (D : forall m, Exists (fun c => Str.is_space c = false) m ->
                        Exists (fun c => Str.is_space c = false)
                               (Str.drop_spaces m)).
  { induction m as [|c m IH]; intros H; simpl; [done|].
    destruct (Str.is_space c) eqn:E; [|done].
    inversion H as [? ? Hc|? ? Hm]; subst; [congruence|by apply IH]. }
  assert (R : forall m, Exists (fun c => Str.is_space c = false) m ->
                        Exists (fun c => Str.is_space c = false) (rev m)).
  { intros m. rewrite !List.Exists_exists. intros (x & Hx & Px).
    exists x. split; [by apply in_rev in Hx|done]. }
  intros H. unfold Str.trim_chars.
  apply D, R, D, R in H. intros E. rewrite E in H. inversion H.
Qed.

Lemma trim_has_nonspace (l : list ascii) :
  Str.trim_chars l <> [] ->
  Exists (fun c => Str.is_space c = false) (Str.trim_chars l).
Proof.
  unfold Str.trim_chars.
  assert (D : forall m c r, Str.drop_spaces m = c :: r -> Str.is_space c = false).
  { induction m as [|x m IH]; intros c r; simpl; [done|].
    destruct (Str.is_space x) eqn:E; [apply IH|]. by intros [= <- _]. }
  destruct (Str.drop_spaces (rev (Str.drop_spaces l))) as [|c r] eqn:E; [done|].
  intros _. apply List.Exists_exists. exists c. split.
  - apply in_rev. rewrite rev_involutive. by left.
  - by apply (D _ _ _ E).
Qed.

Lemma string_of_list_nonEmpty (l : list ascii) :
  l <> [] -> ExpenseForm.nonEmpty (string_of_list_ascii l) = true.
Proof. by destruct l. Qed.

Lemma nonEmpty_list (s : string) :
  ExpenseForm.nonEmpty s = true -> list_ascii_of_string s <> [].
Proof. by destruct s. Qed.

Lemma trim_trim_nonEmpty (s : string) :
  ExpenseForm.nonEmpty (Str.trim s) = true ->
  ExpenseForm.nonEmpty (Str.trim (Str.trim s)) = true.
Proof.
  intros H%nonEmpty_list. unfold Str.trim in *.
  rewrite list_ascii_of_string_of_list_ascii in *.
  by apply string_of_list_nonEmpty, nonspace_trim, trim_has_nonspace.
Qed.

Lemma digit_trim_nonEmpty (s : string) :
  existsb Str.is_digit (list_ascii_of_string s) = true ->
  ExpenseForm.nonEmpty (Str.trim s) = true.
Proof.
  intros (c & Hin & Hc)%existsb_exists.
  apply string_of_list_nonEmpty, nonspace_trim, List.Exists_exists.
  exists c. split; [done|]. by apply digit_not_space.
Qed.

Lemma toLowerCase_digits (s : string) :
  existsb Str.is_digit (list_ascii_of_string (Str.toLowerCase s))
    = existsb Str.is_digit (list_ascii_of_string s).
Proof.
  unfold Str.toLowerCase. rewrite list_ascii_of_string_of_list_ascii.
  induction (list_ascii_of_string s) as [|c l IH]; simpl; [done|].
  by rewrite digit_lower_char, IH.
Qed.

End VoiceFacts.


(** ** Level progress of the journey panel *)

Section ProgressFacts.

Local Open Scope Q_scope.

Lemma panel_totalPoints_nonneg (now : Z) (expenses : list Expense) (budget : Budget) :
  Forall (fun e => finite (amount e)) expenses ->
  map_Forall (fun _ limit => limit <> PInf) budget ->
  exists q, GameificationPanel.totalPoints now expenses budget = Fin q /\ 0 <= q.
Proof.
  intros Hfin Hb.
  destruct (savedAndPoints_invariant
              (GameificationPanel.spentIn now expenses) budget
              (Object_keys budget) 0 0 0) as (s & p & z & E & Hs & Hp & Hz & Hps);
    try done.
  { intros k. apply sumAmounts_finite. by do 2 apply filter_Forall. }
  assert (Esp : GameificationPanel.savedAndPoints now expenses budget
                = (Fin s, Fin p)) by exact E.
  exists (p + inject_Z (Z.of_nat (length
            (GameificationPanel.monthlyExpenses now expenses))) * inject_Z 5).
  split.
  { unfold GameificationPanel.totalPoints. rewrite Esp. reflexivity. }
  assert (0 <= inject_Z z) by (change 0 with (inject_Z 0); rewrite <- Zle_Qle; lia).
  assert (0 <= inject_Z (Z.of_nat (length
            (GameificationPanel.monthlyExpenses now expenses))))
    by (change 0 with (inject_Z 0); rewrite <- Zle_Qle; lia).
  change (inject_Z 5) with (5 # 1). nra.
Qed.

Lemma rem_1000 (q : Q) :
  0 <= q ->
  exists d r : Q,
    rem (Fin q) (lit 1000) = Fin r /\ Math_floor (Fin q / lit 1000)%js = Fin d /\
    r == q - 1000 * d /\ 0 <= r /\ r < 1000.
Proof.
  intros Hq. unfold rem, div, lit, of_Z, Math_floor.
  destruct (Qeqb_spec (inject_Z 1000) 0) as [C|_]; [by vm_compute in C|].
  assert (H0 : 0 <= q / inject_Z 1000).
  { apply Qle_shift_div_l; [by vm_compute|]. lra. }
  destruct (Qltb_spec (q / inject_Z 1000) 0) as [C|_]; [lra|].
  exists (inject_Z (Qfloor (q / inject_Z 1000))). eexists.
  split; [reflexivity|]. split; [reflexivity|].
  pose proof (Qfloor_le (q / inject_Z 1000)) as H1.
  pose proof (Qlt_floor (q / inject_Z 1000)) as H2.
  rewrite inject_Z_plus in H2.
  revert H1 H2. generalize (inject_Z (Qfloor (q / inject_Z 1000))). intros d H1 H2.
  assert (E : q == (q / inject_Z 1000) * 1000).
  { unfold inject_Z. field. }
  revert E H1 H2. generalize (q / inject_Z 1000). intros x E H1 H2.
  change (inject_Z 1000) with (1000 # 1). change (inject_Z 1) with (1 # 1) in H2.
  split; [reflexivity|]. split; lra.
Qed.

End ProgressFacts.



(** ** The insights of the coach *)

Section InsightFacts.

Import FinancialInsight.

Variable Object_entries : gmap string number -> list (string * number).
Variables (now : Z) (expenses : list Expense) (budget : Budget).

Local Abbreviation budgetInsight :=
  (AICoach.budgetInsight now expenses budget).
Local Abbreviation patternInsight :=
  (AICoach.patternInsight Object_entries now expenses).
Local Abbreviation savingsInsight :=
  (AICoach.savingsInsight now expenses budget).
Local Abbreviation trackingInsight :=
  (AICoach.trackingInsight now expenses).

Lemma budgetInsight_types :
  typesOf budgetInsight = [] \/ typesOf budgetInsight = [warning] \/
  typesOf budgetInsight = [achievement].
Proof.
  unfold AICoach.budgetInsight.
  destruct (_ >? _)%js; [|by left]. cbv zeta.
  destruct (_ >? _)%js; [right; by left|].
  destruct (_ <? _)%js; [right; by right|by left].
Qed.

Lemma patternInsight_types :
  typesOf patternInsight = [] \/ typesOf patternInsight = [tip].
Proof.
  unfold AICoach.patternInsight.
  destruct (AICoach.topCategory _ _ _) as [[name spent]|]; [|by left].
  destruct (_ >? _)%js; [by right|by left].
Qed.

Lemma savingsInsight_types :
  typesOf savingsInsight = [] \/ typesOf savingsInsight = [goal].
Proof.
  unfold AICoach.savingsInsight. destruct (_ >? _)%js; [by right|by left].
Qed.

Lemma trackingInsight_types :
  typesOf trackingInsight = [] \/ typesOf trackingInsight = [tip].
Proof.
  unfold AICoach.trackingInsight. destruct (_ && _); [by right|by left].
Qed.

Lemma generateInsights_types :
  typesOf (AICoach.generateInsights Object_entries now expenses budget)
  = (typesOf budgetInsight ++ typesOf patternInsight
     ++ typesOf savingsInsight ++ typesOf trackingInsight)%list.
Proof.
  unfold AICoach.generateInsights, typesOf. by rewrite !map_app.
Qed.

End InsightFacts.

Section UsageFacts.

Local Open Scope Q_scope.

Lemma usage_Fin (s b : Q) :
  0 < b -> (Fin s / Fin b * lit 100)%js = Fin (s / b * inject_Z 100).
Proof.
  intros Hb. unfold div, mul, lit, of_Z.
  destruct (Qeqb_spec b 0) as [E|_]; [lra|done].
Qed.

Lemma usage_above (s b c : Q) :
  0 < b -> (c < s / b * inject_Z 100 <-> c * b < 100 * s).
Proof.
  intros Hb. change (inject_Z 100) with (100 # 1).
  assert (E : s == s / b * b) by (field; lra).
  revert E. generalize (s / b). intros x E. rewrite E. split; intros H; nra.
Qed.

Lemma usage_below (s b c : Q) :
  0 < b -> (s / b * inject_Z 100 < c <-> 100 * s < c * b).
Proof.
  intros Hb. change (inject_Z 100) with (100 # 1).
  assert (E : s == s / b * b) by (field; lra).
  revert E. generalize (s / b). intros x E. rewrite E. split; intros H; nra.
Qed.

(** A usage below 70 leaves room under the budget, whatever the numbers. *)
Lemma low_usage_leaves_room (S B : number) :
  (B >? lit 0)%js = true ->
  ((S / B) * lit 100 <? lit 70)%js = true ->
  (B >? S)%js = true.
Proof.
  unfold gt. destruct B as [| | |b]; try done.
  - (* B = +Infinity *) destruct S as [| | |s]; try done.
  - destruct S as [| | |s]; try done.
    + (* S = +Infinity *)
      unfold lt at 1, lit, of_Z. destruct (Qltb_spec (inject_Z 0) b) as [Hb|]; [|done].
      intros _. unfold div. destruct (Qltb_spec b 0) as [C|_]; [unfold inject_Z in Hb; lra|].
      done.
    + unfold lt at 1, lit, of_Z. destruct (Qltb_spec (inject_Z 0) b) as [Hb|]; [|done].
      intros _. unfold inject_Z in Hb. rewrite usage_Fin by done.
      unfold lt, lit, of_Z.
      destruct (Qltb_spec (s / b * inject_Z 100) (inject_Z 70)) as [H|]; [|done].
      intros _. apply usage_below in H; [|done].
      destruct (Qltb_spec s b) as [|N]; [done|].
      change (inject_Z 70) with (70 # 1) in H. lra.
Qed.

End UsageFacts.


Section TopCategoryFacts.

Local Open Scope Q_scope.

Lemma entries_sorted_desc (entries : list (string * number)) :
  Forall (fun kv : string * number => finite kv.2) entries ->
  StronglySorted (fun a b : string * number => (b.2 <=? a.2)%js = true)
    (Array_sort (fun a b : string * number => (b.2 - a.2)%js) entries).
Proof.
  intros Hv.
  set (cmp := fun a b : string * number => (b.2 - a.2)%js).
  assert (Ho : forall a b : string * number, finite a.2 -> finite b.2 ->
             (mayPrecede cmp a b <-> (b.2 <=? a.2)%js = true)).
  { intros [ka a] [kb b]. simpl. intros [x ->]%finite_Fin [y ->]%finite_Fin.
    unfold mayPrecede, cmp, sub, add, neg, le, lit, of_Z. simpl.
    destruct (Qleb_spec (y + - x) (inject_Z 0)) as [H|H];
      destruct (Qleb_spec y x) as [H'|H']; unfold inject_Z in *;
      split; try done; lra. }
  assert (S : StronglySorted (mayPrecede cmp) (Array_sort cmp entries)).
  { apply (Array_sort_sorted_on _ (fun kv => finite kv.2)); [| |done].
    - intros a b Ha Hb. rewrite !Ho by done.
      destruct a as [ka a], b as [kb b]. simpl in *.
      destruct (finite_Fin _ Ha) as [x ->], (finite_Fin _ Hb) as [y ->].
      unfold le. destruct (Qleb_spec y x), (Qleb_spec x y); try tauto. lra.
    - intros a b c Ha Hb Hc. rewrite !Ho by done.
      destruct a as [ka a], b as [kb b], c as [kc c]. simpl in *.
      destruct (finite_Fin _ Ha) as [x ->], (finite_Fin _ Hb) as [y ->],
               (finite_Fin _ Hc) as [z ->].
      unfold le. destruct (Qleb_spec y x), (Qleb_spec z y), (Qleb_spec z x);
        try done. lra. }
  assert (F : Forall (fun kv : string * number => finite kv.2)
                (Array_sort cmp entries))
    by (by rewrite Array_sort_Permutation).
  revert S F. generalize (Array_sort cmp entries) as l. intros l S.
  induction S as [|x l Hs IH Hx]; intros F; [constructor|].
  inversion F as [|? ? Fx Fl]; subst. constructor; [by apply IH|].
  apply List.Forall_forall. intros y Hy.
  rewrite List.Forall_forall in Hx, Fl. apply Ho; auto.
Qed.

(** The first of at most two finite numbers in descending order is at least
    half of their sum. *)
Lemma head_at_least_half (k : string) (x : Q) (rest : list (string * number)) :
  (length rest <= 1)%nat ->
  Forall (fun kv : string * number => finite kv.2) rest ->
  Forall (fun kv : string * number => (kv.2 <=? Fin x)%js = true) rest ->
  0 < x + Qsum rest.*2 -> x + Qsum rest.*2 <= 2 * x.
Proof.
  intros Hlen Hf Hle. destruct rest as [|[k' v] [|? ?]]; simpl in *; [lra| |lia].
  inversion Hf as [|? ? Hv _]; subst. inversion Hle as [|? ? Hv' _]; subst.
  simpl in *. destruct (finite_Fin _ Hv) as [y ->]. simpl.
  unfold le in Hv'. destruct (Qleb_spec y x); [lra|done].
Qed.

End TopCategoryFacts.



(** ** The achievements of the journey panel *)

Section PanelAchievementFacts.

Local Open Scope Q_scope.

Lemma ge_of_nat (a b : nat) : (of_nat a >=? of_nat b)%js = true <-> (b <= a)%nat.
Proof.
  unfold ge, le, of_nat, of_Z.
  destruct (Qleb_spec (inject_Z (Z.of_nat b)) (inject_Z (Z.of_nat a))) as [H|H].
  - rewrite <- Zle_Qle in H. split; [lia|done].
  - split; [done|]. intros L. exfalso. apply H. rewrite <- Zle_Qle. lia.
Qed.

Lemma ge_Math_min (a : number) (n : Z) :
  (Math_min a (lit n) >=? lit n)%js = (a >=? lit n)%js.
Proof.
  assert (R : Qleb (inject_Z n) (inject_Z n) = true).
  { destruct (Qleb_spec (inject_Z n) (inject_Z n)) as [|N]; [done|].
    exfalso. apply N. apply Qle_refl. }
  unfold Math_min, ge, lit, of_Z. destruct a as [| | |x]; try done;
    unfold lt, le.
  destruct (Qltb_spec (inject_Z n) x) as [H|H];
    destruct (Qleb_spec (inject_Z n) x) as [H'|H']; try done; lra.
Qed.

Lemma forallb_filter_length {A : Type} (p : A -> bool) (l : list A) :
  forallb p l = true <-> (length l <= length (List.filter p l))%nat.
Proof.
  induction l as [|x l IH]; simpl; [split; [lia|done]|].
  pose proof (List.filter_length_le p l) as Hle.
  destruct (p x); simpl.
  - rewrite IH. lia.
  - split; [done|lia].
Qed.

Lemma Math_max_of_nat_1 (n : nat) :
  Math_max (of_nat n) (lit 1) = of_nat (Nat.max n 1) \/
  (n = 0%nat /\ Math_max (of_nat n) (lit 1) = lit 1).
Proof.
  destruct n as [|n]; [right; by split|left].
  unfold Math_max, of_nat, lit, of_Z, lt.
  destruct (Qltb_spec (inject_Z (Z.of_nat (S n))) (inject_Z 1)) as [H|_].
  - rewrite <- Zlt_Qlt in H. lia.
  - by rewrite Nat.max_l by lia.
Qed.

End PanelAchievementFacts.

(** X21.  Every achievement of the journey panel is unlocked exactly when
    its progress has reached its maximum, with one exception: while no budget
    is set, "Budget Champion" is unlocked although its progress reads 0 of
    1. *)
Theorem panel_achievements_progress (now : Z) (expenses : list Expense)
    (budget : Budget) :
  (forall a : PanelAchievement.t,
     In a (GameificationPanel.achievements now expenses budget) ->
     PanelAchievement.id a <> "budget_champion"%string \/ budget <> ∅ ->
     (PanelAchievement.unlocked a = true
      <-> (PanelAchievement.progress a >=? PanelAchievement.maxProgress a)%js
          = true)) /\
  (budget = ∅ ->
   exists a : PanelAchievement.t,
     In a (GameificationPanel.achievements now expenses budget) /\
     PanelAchievement.id a = "budget_champion"%string /\
     PanelAchievement.unlocked a = true /\
     PanelAchievement.progress a = lit 0 /\
     PanelAchievement.maxProgress a = lit 1).
Proof.
  split.
  - intros a Hin Hex. unfold GameificationPanel.achievements in Hin.
    cbv zeta in Hin. cbn [In] in Hin.
    destruct Hin as [<-|[<-|[<-|[<-|[<-|[<-|[]]]]]]];
      cbn [PanelAchievement.unlocked PanelAchievement.progress
           PanelAchievement.maxProgress PanelAchievement.id] in *.
    + by rewrite ge_Math_min.
    + done.
    + by rewrite ge_Math_min.
    + by rewrite ge_Math_min.
    + destruct Hex as [Hex|Hex]; [done|].
      assert (Hk : Object_keys budget <> []).
      { unfold Object_keys. intros E. apply fmap_nil_inv in E.
        by apply map_to_list_empty_iff in E. }
      destruct (Math_max_of_nat_1 (length (Object_keys budget))) as [->|[E _]].
      * rewrite ge_of_nat, forallb_filter_length.
        destruct (Object_keys budget); [done|]. simpl length.
        rewrite Nat.max_l by lia. done.
      * by destruct (Object_keys budget).
    + by rewrite ge_Math_min.
  - intros ->. eexists. split.
    + unfold GameificationPanel.achievements. cbv zeta.
      do 4 right. left. reflexivity.
    + cbn [PanelAchievement.unlocked PanelAchievement.progress
           PanelAchievement.maxProgress PanelAchievement.id].
      repeat split.
Qed.
